(** * Salesforce "add to permission set" action: a shallow embedding

    The action is a JavaScript module with three lifecycle entry points
    ([invoke], [error], [halt]) and two helpers taken from the shared
    utilities bundle ([getBaseURL], [getAuthorizationHeader]).

    Modelling conventions.
    - A JavaScript string is a [string]: a sequence of code units, here
      restricted to U+0000..U+00FF (one [ascii] per code unit).
    - A value read from a response body is a [value] (JSON plus
      [undefined]); property reads, truthiness and string conversion
      follow the language, including the [TypeError] raised on reading a
      property of [null] or [undefined], and the one raised on
      converting to a string an object with a member named [toString].
    - [params] fields are optional strings, as the JSDoc of the entry
      points declares them; [None] stands for an absent property.
    - [context.environment] and [context.secrets] are finite maps from
      names to strings.
    - Asynchronous code runs sequentially; it is written in a monad that
      threads the list of HTTP requests issued so far and may throw.
    - A response has a status, a status text and a body; [ok] is the
      status range 200-299, and the body can be read once.
    - [console.log] output is not part of the model; the string
      conversions of its template literals are, since they can throw.

    The repository also keeps an earlier variant of the script, which
    takes the access token and the instance URL from the context and
    classifies errors in its error handler; it is embedded as
    [LegacyScript] and [Legacy.error]. *)

From Stdlib Require Import ZArith Ascii String List Bool DecimalString.
From stdpp Require Import gmap strings.
Import ListNotations.

Set Warnings "-register-all".
Local Open Scope Z_scope.

(** ** JavaScript strings *)

Module JsString.

(** [s.startsWith(p)] *)
Definition startsWith (s p : string) : bool := String.prefix p s.

(** [s.endsWith(p)] *)
Fixpoint endsWith (s p : string) : bool :=
  String.eqb s p ||
  match s with
  | EmptyString => false
  | String _ s' => endsWith s' p
  end.

(** [s.includes(p)] *)
Fixpoint includes (s p : string) : bool :=
  String.prefix p s ||
  match s with
  | EmptyString => false
  | String _ s' => includes s' p
  end.

(** [s.slice(0, -1)]: all but the last code unit. *)
Fixpoint slice_0_m1 (s : string) : string :=
  match s with
  | EmptyString => EmptyString
  | String c s' =>
      match s' with
      | EmptyString => EmptyString
      | String _ _ => String c (slice_0_m1 s')
      end
  end.

(** Lower-casing of one code unit below U+0100: A-Z and the Latin-1
    capitals U+00C0..U+00DE (but not the multiplication sign U+00D7)
    move up by 32; every other unit is unchanged. *)
Definition lower_unit (c : ascii) : ascii :=
  let n := N_of_ascii c in
  if ((65 <=? n) && (n <=? 90) ||
      (192 <=? n) && (n <=? 222) && negb (n =? 215))%N
  then ascii_of_N (n + 32) else c.

(** [s.toLowerCase()] *)
Fixpoint toLowerCase (s : string) : string :=
  match s with
  | EmptyString => EmptyString
  | String c s' => String (lower_unit c) (toLowerCase s')
  end.

(** Decimal rendering of an integer, as in a template literal. *)
Definition of_Z (n : Z) : string := NilEmpty.string_of_int (Z.to_int n).

(** [parts.join(sep)] *)
Fixpoint join (sep : string) (parts : list string) : string :=
  match parts with
  | [] => EmptyString
  | [p] => p
  | p :: rest => p +:+ sep +:+ join sep rest
  end.

End JsString.

(** ** JavaScript values *)

(** Numbers are restricted to the safe integers (of magnitude below
    2^53), which a template literal prints in plain decimal with their
    exact digits.  An object lists its own properties in enumeration
    order. *)
Inductive value : Type :=
| VUndefined
| VNull
| VBool (b : bool)
| VNum (n : Z)
| VStr (s : string)
| VArr (elems : list value)
| VObj (fields : list (string * value)).

(** Errors raised by the program ([new Error(..)]) or by the runtime. *)
Inductive exn : Type :=
| Error (message : string)
| TypeError (message : string)
| SyntaxError (message : string).

Definition message (e : exn) : string :=
  match e with
  | Error m | TypeError m | SyntaxError m => m
  end.

(** The result of evaluating an expression or a call: a value, or a
    thrown error (a rejected promise, for asynchronous code). *)
Inductive outcome (A : Type) : Type :=
| Return (a : A)
| Throw (e : exn).
Arguments Return {A} a.
Arguments Throw {A} e.

Module Js.

(** [ToBoolean] *)
Definition truthy (v : value) : bool :=
  match v with
  | VUndefined | VNull => false
  | VBool b => b
  | VNum n => negb (n =? 0)
  | VStr s => negb (String.eqb s EmptyString)
  | VArr _ | VObj _ => true
  end.

Definition nullish (v : value) : bool :=
  match v with
  | VUndefined | VNull => true
  | _ => false
  end.

(** An optional string seen as a value ([None] is [undefined]). *)
Definition of_option (o : option string) : value :=
  match o with
  | Some s => VStr s
  | None => VUndefined
  end.

(** [a || b] on optional strings. *)
Definition or (a b : option string) : option string :=
  match a with
  | Some s => if String.eqb s EmptyString then b else a
  | None => b
  end.

(** [!a] on an optional string. *)
Definition falsy (a : option string) : bool :=
  match a with
  | Some s => String.eqb s EmptyString
  | None => true
  end.

Fixpoint assoc (k : string) (fields : list (string * value)) : value :=
  match fields with
  | [] => VUndefined
  | (k', v) :: rest => if String.eqb k k' then v else assoc k rest
  end.

(** [v.k] for the named properties this program reads ([records],
    [Id], [id], [errorCode], [message], [access_token], [length]);
    none of them is inherited from a prototype, except [length] of
    arrays and strings. *)
Definition get (v : value) (k : string) : outcome value :=
  match v with
  | VUndefined =>
      Throw (TypeError ("Cannot read properties of undefined (reading '" +:+ k +:+ "')"))
  | VNull =>
      Throw (TypeError ("Cannot read properties of null (reading '" +:+ k +:+ "')"))
  | VObj fields => Return (assoc k fields)
  | VArr elems =>
      Return (if String.eqb k "length" then VNum (Z.of_nat (length elems))
              else VUndefined)
  | VStr s =>
      Return (if String.eqb k "length" then VNum (Z.of_nat (String.length s))
              else VUndefined)
  | VBool _ | VNum _ => Return VUndefined
  end.

(** [v[0]] *)
Definition get0 (v : value) : outcome value :=
  match v with
  | VUndefined =>
      Throw (TypeError "Cannot read properties of undefined (reading '0')")
  | VNull =>
      Throw (TypeError "Cannot read properties of null (reading '0')")
  | VObj fields => Return (assoc "0" fields)
  | VArr elems => Return (hd VUndefined elems)
  | VStr s =>
      Return (match s with
              | EmptyString => VUndefined
              | String c _ => VStr (String c EmptyString)
              end)
  | VBool _ | VNum _ => Return VUndefined
  end.

(** [Object.hasOwn(v, k)] for the members of a JSON object. *)
Fixpoint has_own (k : string) (fields : list (string * value)) : bool :=
  match fields with
  | [] => false
  | (k', _) :: rest => String.eqb k k' || has_own k rest
  end.

(** [ToString], as applied by a template literal.  A JSON object with
    a member named [toString] hides [Object.prototype.toString] behind
    a value that cannot be called, and [valueOf] gives no primitive, so
    the conversion throws a [TypeError]; every other object prints as
    '[object Object]'.  An array prints its elements, [null] as the
    empty string, joined by commas, and throws when an element does.
    Numbers are the integers of the safe range, where the decimal
    digits are what the platform prints.

    [can_print] tells whether the conversion returns, [print] what it
    returns then. *)
Fixpoint can_print (v : value) : bool :=
  match v with
  | VArr elems =>
      (fix each (l : list value) : bool :=
         match l with
         | [] => true
         | x :: l' => can_print x && each l'
         end) elems
  | VObj fields => negb (has_own "toString" fields)
  | _ => true
  end.

Fixpoint print (v : value) : string :=
  match v with
  | VUndefined => "undefined"
  | VNull => "null"
  | VBool b => if b then "true" else "false"
  | VNum n => JsString.of_Z n
  | VStr s => s
  | VArr elems =>
      JsString.join ","
        ((fix each (l : list value) : list string :=
            match l with
            | [] => []
            | x :: l' =>
                (match x with
                 | VUndefined | VNull => EmptyString
                 | _ => print x
                 end) :: each l'
            end) elems)
  | VObj _ => "[object Object]"
  end.

Definition to_string (v : value) : outcome string :=
  if can_print v then Return (print v)
  else Throw (TypeError "Cannot convert object to primitive value").

(** [v === 'literal'] *)
Definition is_str (v : value) (literal : string) : bool :=
  match v with
  | VStr s => String.eqb s literal
  | _ => false
  end.

(** [v === n] for a number literal. *)
Definition is_num (v : value) (n : Z) : bool :=
  match v with
  | VNum m => m =? n
  | _ => false
  end.

Fixpoint some_elems (f : value -> outcome value) (elems : list value) : outcome bool :=
  match elems with
  | [] => Return false
  | x :: rest =>
      match f x with
      | Return r => if truthy r then Return true else some_elems f rest
      | Throw e => Throw e
      end
  end.

(** [v.some(f)]: the array method when [v] is an array; otherwise the
    property read or the call fails. *)
Definition some (v : value) (f : value -> outcome value) : outcome bool :=
  match v with
  | VArr elems => some_elems f elems
  | VUndefined =>
      Throw (TypeError "Cannot read properties of undefined (reading 'some')")
  | VNull =>
      Throw (TypeError "Cannot read properties of null (reading 'some')")
  | _ => Throw (TypeError "errorResult.some is not a function")
  end.

End Js.

(** ** Platform encoders *)

Module Encode.

Definition dquote : ascii := ascii_of_N 34.
Definition backslash : ascii := ascii_of_N 92.

Definition digit_of (alphabet : string) (n : N) : ascii :=
  match String.get (N.to_nat n) alphabet with
  | Some c => c
  | None => "?"%char
  end.

Definition b64 : N -> ascii :=
  digit_of "ABCDEFGHIJKLMNOPQRSTUVWXYZabcdefghijklmnopqrstuvwxyz0123456789+/".

Fixpoint base64 (units : list N) : string :=
  (match units with
   | [] => EmptyString
   | [a] =>
       String (b64 (a / 4)) (String (b64 (a mod 4 * 16)) "==")
   | [a; b] =>
       String (b64 (a / 4)) (String (b64 (a mod 4 * 16 + b / 16))
         (String (b64 (b mod 16 * 4)) "="))
   | a :: b :: c :: rest =>
       String (b64 (a / 4)) (String (b64 (a mod 4 * 16 + b / 16))
         (String (b64 (b mod 16 * 4 + c / 64)) (String (b64 (c mod 64))
           (base64 rest))))
   end)%N.

Fixpoint units (s : string) : list N :=
  match s with
  | EmptyString => []
  | String c s' => N_of_ascii c :: units s'
  end.

(** [btoa(s)]; every code unit of the model is below U+0100, so the
    call does not raise [InvalidCharacterError]. *)
Definition btoa (s : string) : string := base64 (units s).

Definition hex_upper : N -> ascii := digit_of "0123456789ABCDEF".
Definition hex_lower : N -> ascii := digit_of "0123456789abcdef".

Definition percent (byte : N) : string :=
  String "%" (String (hex_upper (byte / 16))
    (String (hex_upper (byte mod 16)) EmptyString))%N.

(** UTF-8 bytes of a code unit below U+0100. *)
Definition utf8 (n : N) : list N :=
  (if n <? 128 then [n] else [192 + n / 64; 128 + n mod 64])%N.

Definition percent_unit (c : ascii) : string :=
  fold_right (fun b acc => percent b +:+ acc) EmptyString
             (utf8 (N_of_ascii c)).

Definition alphanumeric (c : ascii) : bool :=
  let n := N_of_ascii c in
  ((48 <=? n) && (n <=? 57) || (65 <=? n) && (n <=? 90) ||
   (97 <=? n) && (n <=? 122))%N.

Fixpoint member (c : ascii) (s : string) : bool :=
  match s with
  | EmptyString => false
  | String c' s' => Ascii.eqb c c' || member c s'
  end.

Fixpoint encodeURIComponent (s : string) : string :=
  match s with
  | EmptyString => EmptyString
  | String c s' =>
      (if alphanumeric c || member c "-_.!~*'()"
       then String c EmptyString else percent_unit c)
      +:+ encodeURIComponent s'
  end.

(** The [application/x-www-form-urlencoded] serializer of
    [URLSearchParams]. *)
Fixpoint form_encode (s : string) : string :=
  match s with
  | EmptyString => EmptyString
  | String c s' =>
      (if Ascii.eqb c " " then "+"
       else if alphanumeric c || member c "*-._"
       then String c EmptyString else percent_unit c)
      +:+ form_encode s'
  end.

(** [params.toString()] for a [URLSearchParams] built by [append]. *)
Definition URLSearchParams_toString (params : list (string * string)) : string :=
  JsString.join "&"
    (map (fun '(k, v) => form_encode k +:+ "=" +:+ form_encode v) params).

(** The escape of one code unit inside a JSON string literal. *)
Definition json_unit (c : ascii) : string :=
  let n := N_of_ascii c in
  let esc (x : ascii) := String backslash (String x EmptyString) in
  (if n =? 34 then esc dquote
   else if n =? 92 then esc backslash
   else if n =? 8 then esc "b"%char
   else if n =? 9 then esc "t"%char
   else if n =? 10 then esc "n"%char
   else if n =? 12 then esc "f"%char
   else if n =? 13 then esc "r"%char
   else if n <? 32 then
     String backslash
       (String "u" (String "0" (String "0" (String (hex_lower (n / 16))
          (String (hex_lower (n mod 16)) EmptyString)))))
   else String c EmptyString)%N.

Fixpoint json_escape (s : string) : string :=
  match s with
  | EmptyString => EmptyString
  | String c s' => json_unit c +:+ json_escape s'
  end.

Definition json_quote (s : string) : string :=
  String dquote (json_escape s +:+ String dquote EmptyString).

(** [JSON.stringify(v)]; [None] is the result [undefined]. *)
Fixpoint stringify (v : value) : option string :=
  match v with
  | VUndefined => None
  | VNull => Some "null"
  | VBool b => Some (if b then "true" else "false")
  | VNum n => Some (JsString.of_Z n)
  | VStr s => Some (json_quote s)
  | VArr elems =>
      Some ("[" +:+
            JsString.join ","
              ((fix each (l : list value) : list string :=
                  match l with
                  | [] => []
                  | x :: l' =>
                      match stringify x with
                      | Some t => t
                      | None => "null"
                      end :: each l'
                  end) elems)
            +:+ "]")
  | VObj fields =>
      Some ("{" +:+
            JsString.join ","
              ((fix each (l : list (string * value)) : list string :=
                  match l with
                  | [] => []
                  | (k, x) :: l' =>
                      match stringify x with
                      | Some t => (json_quote k +:+ ":" +:+ t) :: each l'
                      | None => each l'
                      end
                  end) fields)
            +:+ "}")
  end.

End Encode.

(** ** HTTP and the execution monad *)

Module Request.
Record t : Type := make {
  url : string;
  method : string;
  headers : list (string * string);
  body : option string
}.
End Request.

Module Response.
(** [json] is the value [response.json()] resolves to, or [None] when
    the body is not JSON and the call rejects. *)
Record t : Type := make {
  status : Z;
  statusText : string;
  json : option value
}.

(** [response.ok]: the status is in the range 200-299. *)
Definition ok (r : t) : bool := (200 <=? status r) && (status r <=? 299).
End Response.

(** What [fetch] does with a request: the promise rejects (network
    failure) or resolves to a response. *)
Inductive FetchResult : Type :=
| Rejected
| Responded (r : Response.t).

(** The environment of a run: the answer of the network to the [n]-th
    request of the run, and the clock reading of [new Date()]. *)
Record World : Type := {
  respond : nat -> Request.t -> FetchResult;
  now : string
}.

(** A computation takes the requests issued so far and gives an outcome
    with the extended list. *)
Definition M (A : Type) : Type := list Request.t -> outcome A * list Request.t.

Definition ret {A} (a : A) : M A := fun tr => (Return a, tr).

Definition throw {A} (e : exn) : M A := fun tr => (Throw e, tr).

Definition bind {A B} (m : M A) (k : A -> M B) : M B :=
  fun tr =>
    match m tr with
    | (Return a, tr') => k a tr'
    | (Throw e, tr') => (Throw e, tr')
    end.

(** A synchronous expression used inside asynchronous code. *)
Definition lift {A} (o : outcome A) : M A := fun tr => (o, tr).

Notation "'let!' x ':=' m 'in' k" := (bind m (fun x => k))
  (at level 10, x name, m at level 100, k at level 200).

(** Sequencing of synchronous expressions that may throw. *)
Notation "'let?' x ':=' o 'in' k" :=
  (match o with
   | Return x => k
   | Throw e => Throw e
   end)
  (at level 10, x name, o at level 100, k at level 200).

Definition fetch (w : World) (req : Request.t) : M Response.t :=
  fun tr =>
    match respond w (length tr) req with
    | Rejected => (Throw (TypeError "fetch failed"), tr ++ [req])
    | Responded r => (Return r, tr ++ [req])
    end.

(** [await response.json()] *)
Definition json (r : Response.t) : M value :=
  match Response.json r with
  | Some v => ret v
  | None => throw (SyntaxError "Unexpected token in JSON")
  end.

(** ** Inputs of the entry points *)

Module Params.
(** The job parameters.  [reason] is added by the host for [halt]. *)
Record t : Type := make {
  username : option string;
  permissionSetId : option string;
  address : option string;
  reason : option string
}.
End Params.

Module ErrorParams.
(** The parameters of the [error] entry point: the original ones plus
    the error, the only property the handlers read. *)
Record t : Type := make {
  error : exn
}.
End ErrorParams.

Module Context.
Record t : Type := make {
  environment : option (gmap string string);
  secrets : option (gmap string string)
}.
End Context.

(** ** The shared utilities (bundled with the action) *)

Module Utils.

(** [`${s}`] for an optional string. *)
Definition str (o : option string) : string :=
  match o with
  | Some s => s
  | None => "undefined"
  end.

Record Config : Type := {
  tokenUrl : option string;
  clientId : option string;
  clientSecret : option string;
  scope : option string;
  audience : option string;
  authStyle : option string
}.

(** Get an OAuth2 access token using the client credentials flow. *)
Definition getClientCredentialsToken (w : World) (config : Config) : M value :=
  if Js.falsy (tokenUrl config) || Js.falsy (clientId config)
     || Js.falsy (clientSecret config)
  then throw (Error "OAuth2 Client Credentials flow requires tokenUrl, clientId, and clientSecret")
  else
    let params := [("grant_type", "client_credentials")] in
    let params :=
      if Js.falsy (scope config) then params
      else params ++ [("scope", str (scope config))] in
    let params :=
      if Js.falsy (audience config) then params
      else params ++ [("audience", str (audience config))] in
    let headers :=
      [("Content-Type", "application/x-www-form-urlencoded");
       ("Accept", "application/json")] in
    let '(params, headers) :=
      if Js.is_str (Js.of_option (authStyle config)) "InParams" then
        (params ++ [("client_id", str (clientId config));
                    ("client_secret", str (clientSecret config))],
         headers)
      else
        let credentials :=
          Encode.btoa (str (clientId config) +:+ ":" +:+ str (clientSecret config)) in
        (params, headers ++ [("Authorization", "Basic " +:+ credentials)]) in
    let! response :=
      fetch w {| Request.url := str (tokenUrl config);
                 Request.method := "POST";
                 Request.headers := headers;
                 Request.body := Some (Encode.URLSearchParams_toString params) |} in
    if negb (Response.ok response) then
      let! errorText :=
        match Response.json response with
        | Some errorData => ret (Encode.stringify errorData)
        | None =>
            (* the body was consumed by [json()]: [text()] rejects *)
            throw (TypeError "Body is unusable: Body has already been read")
        end in
      throw (Error ("OAuth2 token request failed: "
                    +:+ JsString.of_Z (Response.status response) +:+ " "
                    +:+ Response.statusText response +:+ " - "
                    +:+ str errorText))
    else
      let! data := json response in
      let! access_token := lift (Js.get data "access_token") in
      if negb (Js.truthy access_token)
      then throw (Error "No access_token in OAuth2 response")
      else ret access_token.

(** Get the Authorization header value from the context, using the
    first available authentication method. *)
Definition getAuthorizationHeader (w : World) (context : Context.t) : M string :=
  let env := default ∅ (Context.environment context) in
  let secrets := default ∅ (Context.secrets context) in
  (* Method 1: simple bearer token *)
  if negb (Js.falsy (secrets !! "BEARER_AUTH_TOKEN")) then
    let token := str (secrets !! "BEARER_AUTH_TOKEN") in
    ret (if JsString.startsWith token "Bearer " then token else "Bearer " +:+ token)
  (* Method 2: basic auth (username + password) *)
  else if negb (Js.falsy (secrets !! "BASIC_PASSWORD"))
          && negb (Js.falsy (secrets !! "BASIC_USERNAME")) then
    let credentials :=
      Encode.btoa (str (secrets !! "BASIC_USERNAME") +:+ ":"
                   +:+ str (secrets !! "BASIC_PASSWORD")) in
    ret ("Basic " +:+ credentials)
  (* Method 3: OAuth2 authorization code, pre-existing access token *)
  else if negb (Js.falsy (secrets !! "OAUTH2_AUTHORIZATION_CODE_ACCESS_TOKEN")) then
    let token := str (secrets !! "OAUTH2_AUTHORIZATION_CODE_ACCESS_TOKEN") in
    ret (if JsString.startsWith token "Bearer " then token else "Bearer " +:+ token)
  (* Method 4: OAuth2 client credentials, fetch a new token *)
  else if negb (Js.falsy (secrets !! "OAUTH2_CLIENT_CREDENTIALS_CLIENT_SECRET")) then
    let tokenUrl := env !! "OAUTH2_CLIENT_CREDENTIALS_TOKEN_URL" in
    let clientId := env !! "OAUTH2_CLIENT_CREDENTIALS_CLIENT_ID" in
    let clientSecret := secrets !! "OAUTH2_CLIENT_CREDENTIALS_CLIENT_SECRET" in
    if Js.falsy tokenUrl || Js.falsy clientId
    then throw (Error "OAuth2 Client Credentials flow requires TOKEN_URL and CLIENT_ID in env")
    else
      let! token :=
        getClientCredentialsToken w
          {| tokenUrl := tokenUrl;
             clientId := clientId;
             clientSecret := clientSecret;
             scope := env !! "OAUTH2_CLIENT_CREDENTIALS_SCOPE";
             audience := env !! "OAUTH2_CLIENT_CREDENTIALS_AUDIENCE";
             authStyle := env !! "OAUTH2_CLIENT_CREDENTIALS_AUTH_STYLE" |} in
      let! text := lift (Js.to_string token) in
      ret ("Bearer " +:+ text)
  else
    throw (Error ("No authentication configured. Provide one of: "
                  +:+ "BEARER_AUTH_TOKEN, BASIC_USERNAME/BASIC_PASSWORD, "
                  +:+ "OAUTH2_AUTHORIZATION_CODE_ACCESS_TOKEN, or OAUTH2_CLIENT_CREDENTIALS_*")).

(** Get the base URL for API calls. *)
Definition getBaseURL (params : Params.t) (context : Context.t) : outcome string :=
  let env := default ∅ (Context.environment context) in
  let address := Js.or (Params.address params) (env !! "ADDRESS") in
  if Js.falsy address
  then Throw (Error "No URL specified. Provide address parameter or ADDRESS environment variable")
  else
    let address := str address in
    (* remove trailing slash if present *)
    Return (if JsString.endsWith address "/"
            then JsString.slice_0_m1 address else address).

End Utils.

(** ** Results of the entry points *)

Module InvokeResult.
Record t : Type := make {
  status : string;
  username : option string;
  userId : value;
  permissionSetId : option string;
  assignmentId : value;
  address : string
}.
End InvokeResult.

Module ErrorResult.
Record t : Type := make {
  status : string
}.
End ErrorResult.

Module HaltResult.
Record t : Type := make {
  status : string;
  username : string;
  reason : option string;
  halted_at : string
}.
End HaltResult.

(** ** The action ([src/script.mjs]) *)

Module Script.

Import Utils.

(** Find a user by username. *)
Definition findUserByUsername (w : World) (username : option string)
    (baseUrl authHeader : string) : M Response.t :=
  let encodedUsername := Encode.encodeURIComponent (str username) in
  let query :=
    "SELECT+Id+FROM+User+WHERE+Username+LIKE+'" +:+ encodedUsername
    +:+ "'+ORDER+BY+Id+ASC" in
  let url := baseUrl +:+ "/services/data/v61.0/query?q=" +:+ query in
  fetch w {| Request.url := url;
             Request.method := "GET";
             Request.headers := [("Authorization", authHeader);
                                 ("Accept", "application/json")];
             Request.body := None |}.

(** Create a permission set assignment. *)
Definition createPermissionSetAssignment (w : World) (userId : value)
    (permissionSetId : option string) (baseUrl authHeader : string) : M Response.t :=
  let url := baseUrl +:+ "/services/data/v61.0/sobjects/PermissionSetAssignment" in
  fetch w {| Request.url := url;
             Request.method := "POST";
             Request.headers := [("Authorization", authHeader);
                                 ("Accept", "application/json");
                                 ("Content-Type", "application/json")];
             Request.body :=
               Encode.stringify
                 (VObj [("AssigneeId", userId);
                        ("PermissionSetId", Js.of_option permissionSetId)]) |}.

(** The predicate [invoke] passes to [errorResult.some]: the entry has
    error code 'DUPLICATE_VALUE' or a message that mentions
    'duplicate'. *)
Definition duplicateError (error : value) : outcome value :=
  let? errorCode := Js.get error "errorCode" in
  if Js.is_str errorCode "DUPLICATE_VALUE" then Return (VBool true)
  else
    let? message := Js.get error "message" in
    match message with
    | VUndefined | VNull => Return VUndefined
    | VStr s =>
        Return (VBool (JsString.includes (JsString.toLowerCase s) "duplicate"))
    | _ => Throw (TypeError "error.message?.toLowerCase is not a function")
    end.

(** Main execution handler: adds the user to the permission set. *)
Definition invoke (w : World) (params : Params.t) (context : Context.t)
    : M InvokeResult.t :=
  let username := Params.username params in
  let permissionSetId := Params.permissionSetId params in
  let! baseUrl := lift (getBaseURL params context) in
  let! authHeader := getAuthorizationHeader w context in
  (* Step 1: find the user by username *)
  let! userResponse := findUserByUsername w username baseUrl authHeader in
  if negb (Response.ok userResponse) then
    throw (Error ("Failed to query user " +:+ str username +:+ ": "
                  +:+ JsString.of_Z (Response.status userResponse) +:+ " "
                  +:+ Response.statusText userResponse))
  else
    let! userResult := json userResponse in
    let! records := lift (Js.get userResult "records") in
    let! noRecords :=
      if negb (Js.truthy records) then ret true
      else
        let! length := lift (Js.get records "length") in
        ret (Js.is_num length 0) in
    if noRecords then
      throw (Error ("User not found: " +:+ str username))
    else
      let! first := lift (Js.get0 records) in
      let! userId := lift (Js.get first "Id") in
      (* the log line 'Found user ID: ${userId}' converts the id *)
      let! logged := lift (Js.to_string userId) in
      (* Step 2: create the permission set assignment *)
      let! assignmentResponse :=
        createPermissionSetAssignment w userId permissionSetId baseUrl authHeader in
      let! assignmentId :=
        if Response.status assignmentResponse =? 201 then
          (* successfully created a new assignment *)
          let! assignmentResult := json assignmentResponse in
          let! assignmentId := lift (Js.get assignmentResult "id") in
          (* the log line '...assignment: ${assignmentId}' converts it *)
          let! logged := lift (Js.to_string assignmentId) in
          ret assignmentId
        else if Response.status assignmentResponse =? 400 then
          (* check whether it is a duplicate assignment error *)
          let! errorResult := json assignmentResponse in
          let! isDuplicateError :=
            lift (Js.some errorResult duplicateError) in
          if isDuplicateError then ret VNull
          else
            let! first := lift (Js.get0 errorResult) in
            let! message :=
              if Js.nullish first then ret VUndefined
              else lift (Js.get first "message") in
            let! detail :=
              lift (Js.to_string (if Js.truthy message then message
                                  else VStr "Unknown error")) in
            throw (Error ("Failed to create permission set assignment: "
                          +:+ detail))
        else
          throw (Error ("Failed to create permission set assignment: "
                        +:+ JsString.of_Z (Response.status assignmentResponse)
                        +:+ " " +:+ Response.statusText assignmentResponse)) in
      ret {| InvokeResult.status := "success";
             InvokeResult.username := username;
             InvokeResult.userId := userId;
             InvokeResult.permissionSetId := permissionSetId;
             InvokeResult.assignmentId := assignmentId;
             InvokeResult.address := baseUrl |}.

(** Error recovery handler: rethrows the error it is given. *)
Definition error (params : ErrorParams.t) (_context : Context.t)
    : M ErrorResult.t :=
  let error := ErrorParams.error params in
  throw error.

(** Graceful shutdown handler. *)
Definition halt (w : World) (params : Params.t) (_context : Context.t)
    : M HaltResult.t :=
  let reason := Params.reason params in
  let username := Params.username params in
  ret {| HaltResult.status := "halted";
         HaltResult.username := str (Js.or username (Some "unknown"));
         HaltResult.reason := reason;
         HaltResult.halted_at := now w |}.

End Script.

(** ** The earlier variant of the action, kept in the repository *)

Module Legacy.

(** Error recovery handler of the earlier variant: it classifies the
    error by substrings of its message. *)
Definition error (params : ErrorParams.t) (_context : Context.t)
    : M ErrorResult.t :=
  let error := ErrorParams.error params in
  (* retryable errors: rate limits, server errors *)
  if JsString.includes (message error) "429"
     || JsString.includes (message error) "502"
     || JsString.includes (message error) "503"
     || JsString.includes (message error) "504"
  then
    (* let the framework retry *)
    ret {| ErrorResult.status := "retry_requested" |}
  (* fatal errors (auth, validation) should not retry *)
  else if JsString.includes (message error) "401"
          || JsString.includes (message error) "403"
          || JsString.includes (message error) "is required"
          || JsString.includes (message error) "not found"
  then throw error
  (* default: let the framework retry *)
  else ret {| ErrorResult.status := "retry_requested" |}.

End Legacy.

(** *** Main handler of the earlier variant *)

Module LegacyParams.
(** The job parameters of the earlier variant. *)
Record t : Type := make {
  username : option string;
  permissionSetId : option string;
  apiVersion : option string
}.
End LegacyParams.

Module LegacyResult.
Record t : Type := make {
  status : string;
  username : option string;
  userId : value;
  permissionSetId : option string;
  assignmentId : value
}.
End LegacyResult.

Module LegacyScript.

Section WithURL.

(** [new URL(input, base).toString()]: the URL parser of the platform
    resolves [input] against [base], or throws a [TypeError] when the
    result is not a valid URL.  The parser is a parameter of the model. *)
Variable resolve : string -> string -> outcome string.

(** Find a user by username. *)
Definition findUserByUsername (w : World) (username : option string)
    (instanceUrl accessToken apiVersion : string) : M Response.t :=
  let encodedUsername := Encode.encodeURIComponent (Utils.str username) in
  let query :=
    "SELECT+Id+FROM+User+WHERE+Username+LIKE+'" +:+ encodedUsername
    +:+ "'+ORDER+BY+Id+ASC" in
  let! url :=
    lift (resolve ("/services/data/" +:+ apiVersion +:+ "/query?q=" +:+ query)
                  instanceUrl) in
  fetch w {| Request.url := url;
             Request.method := "GET";
             Request.headers := [("Authorization", "Bearer " +:+ accessToken);
                                 ("Accept", "application/json")];
             Request.body := None |}.

(** Create a permission set assignment. *)
Definition createPermissionSetAssignment (w : World) (userId : value)
    (permissionSetId : option string)
    (instanceUrl accessToken apiVersion : string) : M Response.t :=
  let! url :=
    lift (resolve ("/services/data/" +:+ apiVersion
                   +:+ "/sobjects/PermissionSetAssignment")
                  instanceUrl) in
  fetch w {| Request.url := url;
             Request.method := "POST";
             Request.headers := [("Authorization", "Bearer " +:+ accessToken);
                                 ("Accept", "application/json");
                                 ("Content-Type", "application/json")];
             Request.body :=
               Encode.stringify
                 (VObj [("AssigneeId", userId);
                        ("PermissionSetId", Js.of_option permissionSetId)]) |}.

(** [context.secrets?.NAME] and [context.environment?.NAME] *)
Definition optional (m : option (gmap string string)) (name : string)
    : option string :=
  match m with
  | Some entries => entries !! name
  | None => None
  end.

(** Main execution handler of the earlier variant. *)
Definition invoke (w : World) (params : LegacyParams.t) (context : Context.t)
    : M LegacyResult.t :=
  (* validate required parameters *)
  let username := LegacyParams.username params in
  let permissionSetId := LegacyParams.permissionSetId params in
  let apiVersion :=
    match LegacyParams.apiVersion params with
    | Some v => v
    | None => "v61.0"
    end in
  if Js.falsy username then throw (Error "username is required")
  else if Js.falsy permissionSetId then
    throw (Error "permissionSetId is required")
  (* validate required secrets and environment *)
  else if Js.falsy (optional (Context.secrets context) "SALESFORCE_ACCESS_TOKEN")
  then throw (Error "SALESFORCE_ACCESS_TOKEN secret is required")
  else if Js.falsy (optional (Context.environment context)
                             "SALESFORCE_INSTANCE_URL")
  then throw (Error "SALESFORCE_INSTANCE_URL environment variable is required")
  else
    let SALESFORCE_ACCESS_TOKEN :=
      Utils.str (optional (Context.secrets context) "SALESFORCE_ACCESS_TOKEN") in
    let SALESFORCE_INSTANCE_URL :=
      Utils.str (optional (Context.environment context)
                          "SALESFORCE_INSTANCE_URL") in
    (* Step 1: find the user by username *)
    let! userResponse :=
      findUserByUsername w username SALESFORCE_INSTANCE_URL
                         SALESFORCE_ACCESS_TOKEN apiVersion in
    if negb (Response.ok userResponse) then
      throw (Error ("Failed to query user " +:+ Utils.str username +:+ ": "
                    +:+ JsString.of_Z (Response.status userResponse) +:+ " "
                    +:+ Response.statusText userResponse))
    else
      let! userResult := json userResponse in
      let! records := lift (Js.get userResult "records") in
      let! noRecords :=
        if negb (Js.truthy records) then ret true
        else
          let! length := lift (Js.get records "length") in
          ret (Js.is_num length 0) in
      if noRecords then
        throw (Error ("User not found: " +:+ Utils.str username))
      else
        let! first := lift (Js.get0 records) in
        let! userId := lift (Js.get first "Id") in
        (* the log line 'Found user ID: ${userId}' converts the id *)
        let! logged := lift (Js.to_string userId) in
        (* Step 2: create the permission set assignment *)
        let! assignmentResponse :=
          createPermissionSetAssignment w userId permissionSetId
            SALESFORCE_INSTANCE_URL SALESFORCE_ACCESS_TOKEN apiVersion in
        let! assignmentId :=
          if Response.status assignmentResponse =? 201 then
            let! assignmentResult := json assignmentResponse in
            let! assignmentId := lift (Js.get assignmentResult "id") in
            (* the log line '...assignment: ${assignmentId}' converts it *)
            let! logged := lift (Js.to_string assignmentId) in
            ret assignmentId
          else if Response.status assignmentResponse =? 400 then
            let! errorResult := json assignmentResponse in
            let! isDuplicateError :=
              lift (Js.some errorResult Script.duplicateError) in
            if isDuplicateError then ret VNull
            else
              let! first := lift (Js.get0 errorResult) in
              let! message :=
                if Js.nullish first then ret VUndefined
                else lift (Js.get first "message") in
              let! detail :=
                lift (Js.to_string (if Js.truthy message then message
                                    else VStr "Unknown error")) in
              throw (Error ("Failed to create permission set assignment: "
                            +:+ detail))
          else
            throw (Error ("Failed to create permission set assignment: "
                          +:+ JsString.of_Z (Response.status assignmentResponse)
                          +:+ " " +:+ Response.statusText assignmentResponse)) in
        ret {| LegacyResult.status := "success";
               LegacyResult.username := username;
               LegacyResult.userId := userId;
               LegacyResult.permissionSetId := permissionSetId;
               LegacyResult.assignmentId := assignmentId |}.

End WithURL.

End LegacyScript.

(** ** Vocabulary of the specification *)

(** A secret, environment value or parameter is present when it is set
    to a non-empty string, and absent when it is unset or empty. *)
Definition present (o : option string) (s : string) : Prop :=
  o = Some s /\ s <> EmptyString.

Definition absent (o : option string) : Prop :=
  o = None \/ o = Some EmptyString.

(** [r] is [a] with exactly one trailing slash removed, or [a] itself
    when [a] does not end in a slash. *)
Inductive without_trailing_slash : string -> string -> Prop :=
| trailing_slash_removed (r : string) :
    without_trailing_slash (r +:+ "/") r
| no_trailing_slash (a : string) :
    (forall r, a <> r +:+ "/") -> without_trailing_slash a a.

(** [h] is [token] with ['Bearer '] in front exactly once. *)
Inductive bearer_of (token : string) : string -> Prop :=
| bearer_kept :
    JsString.startsWith token "Bearer " = true -> bearer_of token token
| bearer_prepended :
    JsString.startsWith token "Bearer " = false ->
    bearer_of token ("Bearer " +:+ token).

(** The two classes of error messages of the earlier error handler. *)
Definition retryable (m : string) : Prop :=
  JsString.includes m "429" = true \/ JsString.includes m "502" = true \/
  JsString.includes m "503" = true \/ JsString.includes m "504" = true.

Definition fatal (m : string) : Prop :=
  JsString.includes m "401" = true \/ JsString.includes m "403" = true \/
  JsString.includes m "is required" = true \/
  JsString.includes m "not found" = true.

Definition retry_requested : ErrorResult.t :=
  {| ErrorResult.status := "retry_requested" |}.

(** The classification as the specification words it, for an error
    handler [handler]: every retryable message asks for a retry, every
    fatal message is rethrown, every other message asks for a retry. *)
Definition classifies_by_substring
    (handler : ErrorParams.t -> Context.t -> M ErrorResult.t) : Prop :=
  forall (e : exn) (context : Context.t) (tr : list Request.t),
    let run := handler {| ErrorParams.error := e |} context tr in
    (retryable (message e) -> run = (Return retry_requested, tr)) /\
    (fatal (message e) -> run = (Throw e, tr)) /\
    (~ retryable (message e) -> ~ fatal (message e) ->
     run = (Return retry_requested, tr)).

(** ** Runs of [invoke] *)

(** The configuration is accepted and the user query is answered by
    [userResponse]; [tr1] lists the requests issued up to then. *)
Definition query_answered (w : World) (params : Params.t) (context : Context.t)
    (baseUrl authHeader : string) (userResponse : Response.t)
    (tr1 : list Request.t) : Prop :=
  exists tr0,
    Utils.getBaseURL params context = Return baseUrl /\
    Utils.getAuthorizationHeader w context [] = (Return authHeader, tr0) /\
    Script.findUserByUsername w (Params.username params) baseUrl authHeader tr0
    = (Return userResponse, tr1).

(** [v] can be converted to a string: it is not an object with a
    member named [toString], nor an array that holds such an object. *)
Definition printable (v : value) : Prop :=
  exists text, Js.to_string v = Return text.

(** The user query succeeds with at least one record, whose [Id] reads
    [userId]. *)
Definition found_user (userResponse : Response.t) (userId : value) : Prop :=
  Response.ok userResponse = true /\
  exists userResult record others,
    Response.json userResponse = Some userResult /\
    Js.get userResult "records" = Return (VArr (record :: others)) /\
    Js.get record "Id" = Return userId.

(** The assignment POST for [userId] is answered by [assignmentResponse]. *)
Definition assignment_answered (w : World) (params : Params.t)
    (baseUrl authHeader : string) (userId : value) (tr1 : list Request.t)
    (assignmentResponse : Response.t) (tr2 : list Request.t) : Prop :=
  Script.createPermissionSetAssignment w userId (Params.permissionSetId params)
    baseUrl authHeader tr1
  = (Return assignmentResponse, tr2).

(** An entry of an error body marks a duplicate: its error code is
    'DUPLICATE_VALUE', or its message contains 'duplicate' in any
    letter case. *)
Definition duplicate_entry (entry : value) : Prop :=
  Js.get entry "errorCode" = Return (VStr "DUPLICATE_VALUE") \/
  exists m, Js.get entry "message" = Return (VStr m) /\
            JsString.includes (JsString.toLowerCase m) "duplicate" = true.

(** An entry the duplicate check can read: a value other than [null]
    whose message is absent, [null] or a string. *)
Definition readable_entry (entry : value) : Prop :=
  exists m, Js.get entry "message" = Return m /\
            (m = VUndefined \/ m = VNull \/ exists s, m = VStr s).

(** The result of a successful run. *)
Definition success (params : Params.t) (baseUrl : string)
    (userId assignmentId : value) : InvokeResult.t :=
  {| InvokeResult.status := "success";
     InvokeResult.username := Params.username params;
     InvokeResult.userId := userId;
     InvokeResult.permissionSetId := Params.permissionSetId params;
     InvokeResult.assignmentId := assignmentId;
     InvokeResult.address := baseUrl |}.

(** C1 as the specification states it: whenever the POST is answered
    with status 400 and a JSON array in which some entry marks a
    duplicate, the run returns 'success' with a null assignment id. *)
Definition duplicate_tolerated_in_any_array : Prop :=
  forall w params context baseUrl authHeader userResponse tr1 userId
         assignmentResponse tr2 entries,
    query_answered w params context baseUrl authHeader userResponse tr1 ->
    found_user userResponse userId ->
    assignment_answered w params baseUrl authHeader userId tr1
                        assignmentResponse tr2 ->
    Response.status assignmentResponse = 400 ->
    Response.json assignmentResponse = Some (VArr entries) ->
    Exists duplicate_entry entries ->
    exists r, Script.invoke w params context [] = (Return r, tr2)
              /\ InvokeResult.status r = "success"
              /\ InvokeResult.assignmentId r = VNull.

(** The run throws an error whose message starts with
    'Failed to create permission set assignment'. *)
Definition failed_to_create (run : outcome InvokeResult.t * list Request.t)
    (tr2 : list Request.t) : Prop :=
  exists m, run = (Throw (Error m), tr2)
            /\ JsString.startsWith m "Failed to create permission set assignment"
               = true.

(** Two parts of C6 as the specification states it: every 201 answer
    gives 'success' with the [id] of the answer's body, and every 400
    answer that is not classified as a duplicate gives the error
    above. *)
Definition created_gives_id : Prop :=
  forall w params context baseUrl authHeader userResponse tr1 userId
         assignmentResponse tr2,
    query_answered w params context baseUrl authHeader userResponse tr1 ->
    found_user userResponse userId ->
    assignment_answered w params baseUrl authHeader userId tr1
                        assignmentResponse tr2 ->
    Response.status assignmentResponse = 201 ->
    exists r body,
      Script.invoke w params context [] = (Return r, tr2)
      /\ InvokeResult.status r = "success"
      /\ Response.json assignmentResponse = Some body
      /\ Js.get body "id" = Return (InvokeResult.assignmentId r).

Definition other_bad_request_fails : Prop :=
  forall w params context baseUrl authHeader userResponse tr1 userId
         assignmentResponse tr2,
    query_answered w params context baseUrl authHeader userResponse tr1 ->
    found_user userResponse userId ->
    assignment_answered w params baseUrl authHeader userId tr1
                        assignmentResponse tr2 ->
    Response.status assignmentResponse = 400 ->
    ~ (exists body, Response.json assignmentResponse = Some body
                    /\ Js.some body Script.duplicateError = Return true) ->
    failed_to_create (Script.invoke w params context []) tr2.

(** ** The two steps of [invoke] *)

(** [req] is a request that [createPermissionSetAssignment] sends. *)
Definition assignment_post (req : Request.t) : Prop :=
  exists w userId permissionSetId baseUrl authHeader tr o,
    Script.createPermissionSetAssignment w userId permissionSetId
      baseUrl authHeader tr
    = (o, tr ++ [req]).

(** What step 1 of [invoke] needs from the answer to the user query to
    go on to step 2 with [userId]: the checks on [records] pass, the
    first record has an [Id] that can be read, and the log line can
    print it. *)
Definition resolved_user (userResponse : Response.t) (userId : value) : Prop :=
  Response.ok userResponse = true /\
  exists userResult records len first,
    Response.json userResponse = Some userResult /\
    Js.get userResult "records" = Return records /\
    Js.truthy records = true /\
    Js.get records "length" = Return len /\
    Js.is_num len 0 = false /\
    Js.get0 records = Return first /\
    Js.get first "Id" = Return userId /\
    printable userId.

(** The user query was answered ok with a non-empty list of records,
    as the specification words the condition of the assignment. *)
Definition has_record_list (userResponse : Response.t) : Prop :=
  Response.ok userResponse = true /\
  exists userResult record others,
    Response.json userResponse = Some userResult /\
    Js.get userResult "records" = Return (VArr (record :: others)).

(** C4 as the specification states it: an assignment POST is sent only
    after the user query was answered ok with a non-empty list of
    records. *)
Definition post_only_after_record_list : Prop :=
  forall w params context o tr req,
    Script.invoke w params context [] = (o, tr) ->
    In req tr -> assignment_post req ->
    exists baseUrl authHeader userResponse tr1,
      query_answered w params context baseUrl authHeader userResponse tr1
      /\ has_record_list userResponse.

(** The answer passes the checks of [invoke] on [records]: it is ok,
    its JSON body reads a [records] value that is truthy and whose
    [length] is not 0.  A list of records that passes is not empty;
    the checks also let pass a value that is no list, such as a
    non-empty string or an object without a [length] of 0. *)
Definition records_pass_check (userResponse : Response.t) : Prop :=
  Response.ok userResponse = true /\
  exists userResult records len,
    Response.json userResponse = Some userResult /\
    Js.get userResult "records" = Return records /\
    Js.truthy records = true /\
    Js.get records "length" = Return len /\
    Js.is_num len 0 = false /\
    forall elems, records = VArr elems -> elems <> [].

(** The answer fails those checks: it is not ok, or it has no JSON
    body, or [records] cannot be read from the body (the body is
    [null]), or [records] is falsy (missing, [null], [false], [0], the
    empty string) or has length 0 (the empty list). *)
Definition fails_records_check (userResponse : Response.t) : Prop :=
  Response.ok userResponse = false \/
  Response.json userResponse = None \/
  exists userResult,
    Response.json userResponse = Some userResult /\
    ((exists e, Js.get userResult "records" = Throw e) \/
     exists records,
       Js.get userResult "records" = Return records /\
       (Js.truthy records = false
        \/ Js.get records "length" = Return (VNum 0))).

(** [body] has a member named [k]. *)
Definition has_field (body : value) (k : string) : bool :=
  match body with
  | VObj fields => Js.has_own k fields
  | _ => false
  end.

(** C5 as the specification states it: every ok answer whose body has
    no [records] field, or an empty list of records, makes [invoke]
    throw 'User not found: ' followed by the user name. *)
Definition not_found_without_records : Prop :=
  forall w params context baseUrl authHeader userResponse tr1 username body,
    query_answered w params context baseUrl authHeader userResponse tr1 ->
    Params.username params = Some username ->
    Response.ok userResponse = true ->
    Response.json userResponse = Some body ->
    has_field body "records" = false
    \/ Js.get body "records" = Return (VArr []) ->
    Script.invoke w params context []
    = (Throw (Error ("User not found: " +:+ username)), tr1).

(** Step 2 of [invoke], from the assignment POST on, as a computation of
    its own; [invoke_resolved] below shows that [invoke] continues with
    it once step 1 has resolved the user. *)
Definition assignment_step (w : World) (params : Params.t)
    (baseUrl authHeader : string) (userId : value) : M InvokeResult.t :=
  let! assignmentResponse :=
    Script.createPermissionSetAssignment w userId (Params.permissionSetId params)
      baseUrl authHeader in
  let! assignmentId :=
    if Response.status assignmentResponse =? 201 then
      let! assignmentResult := json assignmentResponse in
      let! assignmentId := lift (Js.get assignmentResult "id") in
      let! logged := lift (Js.to_string assignmentId) in
      ret assignmentId
    else if Response.status assignmentResponse =? 400 then
      let! errorResult := json assignmentResponse in
      let! isDuplicateError := lift (Js.some errorResult Script.duplicateError) in
      if isDuplicateError then ret VNull
      else
        let! first := lift (Js.get0 errorResult) in
        let! message :=
          if Js.nullish first then ret VUndefined
          else lift (Js.get first "message") in
        let! detail :=
          lift (Js.to_string (if Js.truthy message then message
                              else VStr "Unknown error")) in
        throw (Error ("Failed to create permission set assignment: "
                      +:+ detail))
    else
      throw (Error ("Failed to create permission set assignment: "
                    +:+ JsString.of_Z (Response.status assignmentResponse)
                    +:+ " " +:+ Response.statusText assignmentResponse)) in
  ret (success params baseUrl userId assignmentId).

(** ** Records beyond the first *)

(** [replace_tail tail v] keeps the first element of a non-empty array
    and puts [tail] after it; any other value is unchanged. *)
Definition replace_tail (tail : list value) (v : value) : value :=
  match v with
  | VArr (x :: _) => VArr (x :: tail)
  | _ => v
  end.

Fixpoint retail_fields (tail : list value) (fields : list (string * value))
    : list (string * value) :=
  match fields with
  | [] => []
  | (k, v) :: rest =>
      (k, if String.eqb k "records" then replace_tail tail v else v)
      :: retail_fields tail rest
  end.

Definition retail_body (tail : list value) (body : value) : value :=
  match body with
  | VObj fields => VObj (retail_fields tail fields)
  | _ => body
  end.

Definition retail_response (tail : list value) (r : Response.t) : Response.t :=
  {| Response.status := Response.status r;
     Response.statusText := Response.statusText r;
     Response.json := option_map (retail_body tail) (Response.json r) |}.

(** The world [w] with the records beyond index 0 of every answer
    replaced by [tail]. *)
Definition with_records_tail (tail : list value) (w : World) : World :=
  {| respond := fun n req =>
       match respond w n req with
       | Rejected => Rejected
       | Responded r => Responded (retail_response tail r)
       end;
     now := now w |}.

(** ** Sample inputs *)

Definition offline : World :=
  {| respond := fun _ _ => Rejected; now := "2024-01-01T00:00:00.000Z" |}.

Definition sample_params : Params.t :=
  {| Params.username := Some "test.user@example.com";
     Params.permissionSetId := Some "0PS000000000001";
     Params.address := None;
     Params.reason := Some "timeout" |}.

Definition bearer_context : Context.t :=
  {| Context.environment := Some {[ "ADDRESS" := "https://test.my.salesforce.com" ]};
     Context.secrets := Some {[ "BEARER_AUTH_TOKEN" := "test-access-token" ]} |}.

Definition basic_context : Context.t :=
  {| Context.environment := Some {[ "ADDRESS" := "https://test.my.salesforce.com/" ]};
     Context.secrets :=
       Some (<[ "BASIC_USERNAME" := "user" ]>
               {[ "BASIC_PASSWORD" := "pass";
                  "OAUTH2_AUTHORIZATION_CODE_ACCESS_TOKEN" := "Bearer abc" ]}) |}.

(** ** Sample runs *)

(** A world that answers the requests of a run in order, like the
    queue of mock responses of the test suite. *)
Definition scripted (answers : list Response.t) : World :=
  {| respond := fun n _ =>
       match nth_error answers n with
       | Some r => Responded r
       | None => Rejected
       end;
     now := "2024-01-01T00:00:00.000Z" |}.

Definition answer (status : Z) (statusText : string) (body : option value)
    : Response.t :=
  {| Response.status := status;
     Response.statusText := statusText;
     Response.json := body |}.

Definition one_user : Response.t :=
  answer 200 "OK" (Some (VObj [("records", VArr [VObj [("Id", VStr "005000000000001")]])])).

Definition no_user : Response.t :=
  answer 200 "OK" (Some (VObj [("records", VArr [])])).

Definition created : Response.t :=
  answer 201 "Created" (Some (VObj [("id", VStr "PSA000000000001")])).

Definition duplicate_error : value :=
  VObj [("errorCode", VStr "DUPLICATE_VALUE");
        ("message", VStr "Duplicate permission set assignment")].

Definition already_assigned : Response.t :=
  answer 400 "Bad Request" (Some (VArr [duplicate_error])).

(** A 400 answer whose array holds [null] before the duplicate entry. *)
Definition null_then_duplicate : Response.t :=
  answer 400 "Bad Request" (Some (VArr [VNull; duplicate_error])).

(** A 400 answer whose body is a JSON object, not an array. *)
Definition bad_request_object : Response.t :=
  answer 400 "Bad Request" (Some (VObj [("message", VStr "Bad Request")])).

(** A 201 answer without a JSON body. *)
Definition created_without_body : Response.t :=
  answer 201 "Created" None.

(** An ok answer whose [records] is a string, not a list. *)
Definition string_records : Response.t :=
  answer 200 "OK" (Some (VObj [("records", VStr "x")])).

(** An ok answer whose body is the JSON value [null]. *)
Definition null_body : Response.t := answer 200 "OK" (Some VNull).

Definition two_users : Response.t :=
  answer 200 "OK"
    (Some (VObj [("records", VArr [VObj [("Id", VStr "005000000000001")];
                                   VObj [("Id", VStr "005000000000002")]])])).

(** ** Vocabulary of the further properties *)

(** The request [findUserByUsername] sends. *)
Definition user_query_request (username : option string)
    (baseUrl authHeader : string) : Request.t :=
  {| Request.url :=
       baseUrl +:+ "/services/data/v61.0/query?q="
       +:+ ("SELECT+Id+FROM+User+WHERE+Username+LIKE+'"
            +:+ Encode.encodeURIComponent (Utils.str username)
            +:+ "'+ORDER+BY+Id+ASC");
     Request.method := "GET";
     Request.headers := [("Authorization", authHeader);
                         ("Accept", "application/json")];
     Request.body := None |}.

(** The request [createPermissionSetAssignment] sends. *)
Definition assignment_request (userId : value) (permissionSetId : option string)
    (baseUrl authHeader : string) : Request.t :=
  {| Request.url :=
       baseUrl +:+ "/services/data/v61.0/sobjects/PermissionSetAssignment";
     Request.method := "POST";
     Request.headers := [("Authorization", authHeader);
                         ("Accept", "application/json");
                         ("Content-Type", "application/json")];
     Request.body :=
       Encode.stringify
         (VObj [("AssigneeId", userId);
                ("PermissionSetId", Js.of_option permissionSetId)]) |}.


(** A character [encodeURIComponent] may produce: an unreserved
    character, or one of a percent escape. *)
Definition uri_safe (c : ascii) : bool :=
  Encode.alphanumeric c || Encode.member c "-_.!~*'()%".

Fixpoint all_units (p : ascii -> bool) (s : string) : bool :=
  match s with
  | EmptyString => true
  | String c s' => p c && all_units p s'
  end.

(** A token endpoint that answers with [body] and status 200. *)
Definition token_answer (access_token : value) : Response.t :=
  answer 200 "OK" (Some (VObj [("access_token", access_token)])).

Definition client_credentials_context : Context.t :=
  {| Context.environment :=
       Some (<[ "ADDRESS" := "https://test.my.salesforce.com" ]>
             (<[ "OAUTH2_CLIENT_CREDENTIALS_TOKEN_URL" := "https://login.example.com/token" ]>
                {[ "OAUTH2_CLIENT_CREDENTIALS_CLIENT_ID" := "client" ]}));
     Context.secrets :=
       Some {[ "OAUTH2_CLIENT_CREDENTIALS_CLIENT_SECRET" := "secret" ]} |}.

(** A context with neither address nor credentials. *)
Definition empty_context : Context.t :=
  {| Context.environment := None; Context.secrets := None |}.

(** A record without an [Id]. *)
Definition user_without_id : Response.t :=
  answer 200 "OK" (Some (VObj [("records", VArr [VObj []])])).

Definition unauthorized : Response.t := answer 401 "Unauthorized" None.

(** A record whose [Id] is an object with a member named [toString]. *)
Definition unprintable : value := VObj [("toString", VNum 1)].

Definition user_with_unprintable_id : Response.t :=
  answer 200 "OK" (Some (VObj [("records", VArr [VObj [("Id", unprintable)]])])).

Definition created_with_unprintable_id : Response.t :=
  answer 201 "Created" (Some (VObj [("id", unprintable)])).

Definition null_records : Response.t :=
  answer 200 "OK" (Some (VObj [("records", VNull)])).

(** *** The earlier variant *)

(** The message contains one of the codes the earlier error handler
    takes for retryable. *)
Definition mentions_retry_code (s : string) : bool :=
  JsString.includes s "429" || JsString.includes s "502"
  || JsString.includes s "503" || JsString.includes s "504".

(** The parameters and the context pass the validation of the earlier
    [invoke], with user name [username] and instance URL [instance]. *)
Definition legacy_configured (params : LegacyParams.t) (context : Context.t)
    (username instance : string) : Prop :=
  present (LegacyParams.username params) username /\
  Js.falsy (LegacyParams.permissionSetId params) = false /\
  Js.falsy (LegacyScript.optional (Context.secrets context)
                                  "SALESFORCE_ACCESS_TOKEN") = false /\
  present (LegacyScript.optional (Context.environment context)
                                 "SALESFORCE_INSTANCE_URL") instance.

(** A URL parser for the sample runs: it puts the path after the base. *)
Definition join_url (input base : string) : outcome string :=
  Return (base +:+ input).

Definition legacy_params : LegacyParams.t :=
  {| LegacyParams.username := Some "test.user@example.com";
     LegacyParams.permissionSetId := Some "0PS000000000001";
     LegacyParams.apiVersion := None |}.

Definition legacy_context : Context.t :=
  {| Context.environment :=
       Some {[ "SALESFORCE_INSTANCE_URL" := "https://test.my.salesforce.com" ]};
     Context.secrets :=
       Some {[ "SALESFORCE_ACCESS_TOKEN" := "test-access-token" ]} |}.

Definition rate_limited : Response.t := answer 429 "Too Many Requests" None.








(** * Proofs *)

(** ** Strings *)

Lemma prefix_append (p s : string) : String.prefix p (p +:+ s) = true.
Proof.
  induction p as [|c p IH]; simpl.
  - now destruct s.
  - destruct (ascii_dec c c) as [_|Hne]; [exact IH | now elim Hne].
Qed.

Lemma startsWith_append (p s : string) : JsString.startsWith (p +:+ s) p = true.
Proof. apply prefix_append. Qed.

Lemma endsWith_cons (c : ascii) (s p : string) :
  JsString.endsWith (String c s) p
  = String.eqb (String c s) p || JsString.endsWith s p.
Proof. reflexivity. Qed.

Lemma endsWith_slash_append (r : string) : JsString.endsWith (r +:+ "/") "/" = true.
Proof.
  induction r as [|c r IH]; [reflexivity|].
  change (String c r +:+ "/") with (String c (r +:+ "/")).
  rewrite endsWith_cons, IH. apply orb_true_r.
Qed.

Lemma slice_slash_append (r : string) : JsString.slice_0_m1 (r +:+ "/") = r.
Proof.
  induction r as [|c r IH]; [reflexivity|].
  simpl. rewrite IH. now destruct r.
Qed.

Lemma endsWith_slash_inv (a : string) :
  JsString.endsWith a "/" = true -> exists r, a = r +:+ "/".
Proof.
  induction a as [|c a IH]; [discriminate|].
  rewrite endsWith_cons. intros H. apply orb_true_iff in H as [H|H].
  - apply String.eqb_eq in H. exists EmptyString. exact H.
  - destruct (IH H) as [r ->]. now exists (String c r).
Qed.

Lemma trim_without_trailing_slash (a : string) :
  without_trailing_slash a
    (if JsString.endsWith a "/" then JsString.slice_0_m1 a else a).
Proof.
  destruct (JsString.endsWith a "/") eqn:E.
  - destruct (endsWith_slash_inv a E) as [r ->].
    rewrite slice_slash_append. constructor.
  - constructor. intros r ->.
    rewrite endsWith_slash_append in E. discriminate.
Qed.

(** ** Presence of optional strings *)

Lemma present_falsy o s : present o s -> Js.falsy o = false.
Proof.
  intros [-> Hs]. simpl. now apply String.eqb_neq.
Qed.

Lemma present_str o s : present o s -> Utils.str o = s.
Proof. now intros [-> _]. Qed.

Lemma absent_falsy o : absent o -> Js.falsy o = true.
Proof. now intros [-> | ->]. Qed.

Lemma present_or_l a b s : present a s -> Js.or a b = Some s.
Proof.
  intros [-> Hs]. simpl. apply String.eqb_neq in Hs. now rewrite Hs.
Qed.

Lemma absent_or_l a b : absent a -> Js.or a b = b.
Proof. now intros [-> | ->]. Qed.

Lemma bearer_of_intro (token : string) :
  bearer_of token
    (if JsString.startsWith token "Bearer " then token else "Bearer " +:+ token).
Proof.
  destruct (JsString.startsWith token "Bearer ") eqn:E; now constructor.
Qed.

(** ** The base URL *)

Lemma getBaseURL_chosen (params : Params.t) (context : Context.t) (a : string) :
  present (Js.or (Params.address params)
                 (default ∅ (Context.environment context) !! "ADDRESS")) a ->
  exists r, Utils.getBaseURL params context = Return r /\ without_trailing_slash a r.
Proof.
  intros H. unfold Utils.getBaseURL.
  rewrite (present_falsy _ _ H), (present_str _ _ H).
  eexists. split; [reflexivity|]. apply trim_without_trailing_slash.
Qed.

(** C9. [getBaseURL] gives [params.address] precedence over the
    [ADDRESS] environment variable; the chosen value loses exactly one
    trailing slash when it ends in one and is returned unchanged
    otherwise; when neither is set (or both are empty) the call throws
    an error that mentions 'No URL specified'. *)
Theorem getBaseURL_address_precedence (params : Params.t) (context : Context.t) :
  let env : gmap string string := default ∅ (Context.environment context) in
  (forall a, present (Params.address params) a ->
     exists r, Utils.getBaseURL params context = Return r
               /\ without_trailing_slash a r) /\
  (forall a, absent (Params.address params) -> present (env !! "ADDRESS") a ->
     exists r, Utils.getBaseURL params context = Return r
               /\ without_trailing_slash a r) /\
  (absent (Params.address params) -> absent (env !! "ADDRESS") ->
     exists m, Utils.getBaseURL params context = Throw (Error m)
               /\ JsString.includes m "No URL specified" = true).
Proof.
  intros env. repeat split.
  - intros a Ha. apply getBaseURL_chosen.
    rewrite (present_or_l _ _ _ Ha). destruct Ha as [_ Ha]. now split.
  - intros a Hp He. apply getBaseURL_chosen.
    now rewrite (absent_or_l _ _ Hp).
  - intros Hp He. unfold Utils.getBaseURL.
    rewrite (absent_or_l _ _ Hp). fold env. rewrite (absent_falsy _ He).
    eexists. split; reflexivity.
Qed.

Lemma getBaseURL_address_precedence_witness :
  exists r, Utils.getBaseURL sample_params basic_context = Return r
            /\ without_trailing_slash "https://test.my.salesforce.com/" r.
Proof.
  apply (proj1 (proj2 (getBaseURL_address_precedence sample_params basic_context))).
  - left. reflexivity.
  - split; [reflexivity | discriminate].
Defined.

(** ** The authorization header *)

Section AuthorizationHeader.

Variables (w : World) (context : Context.t) (tr : list Request.t).

Let env : gmap string string := default ∅ (Context.environment context).
Let secrets : gmap string string := default ∅ (Context.secrets context).

Lemma auth_bearer_token (token : string) :
  present (secrets !! "BEARER_AUTH_TOKEN") token ->
  exists h, Utils.getAuthorizationHeader w context tr = (Return h, tr)
            /\ bearer_of token h.
Proof.
  intros H. unfold Utils.getAuthorizationHeader. fold secrets.
  rewrite (present_falsy _ _ H), (present_str _ _ H). cbn [negb].
  eexists. split; [reflexivity|]. apply bearer_of_intro.
Qed.

Lemma auth_basic (user password : string) :
  absent (secrets !! "BEARER_AUTH_TOKEN") ->
  present (secrets !! "BASIC_USERNAME") user ->
  present (secrets !! "BASIC_PASSWORD") password ->
  Utils.getAuthorizationHeader w context tr
  = (Return ("Basic " +:+ Encode.btoa (user +:+ ":" +:+ password)), tr).
Proof.
  intros Hb Hu Hp. unfold Utils.getAuthorizationHeader. fold secrets.
  rewrite (absent_falsy _ Hb), (present_falsy _ _ Hu), (present_falsy _ _ Hp).
  rewrite (present_str _ _ Hu), (present_str _ _ Hp). reflexivity.
Qed.

Lemma basic_incomplete :
  absent (secrets !! "BASIC_PASSWORD") \/ absent (secrets !! "BASIC_USERNAME") ->
  negb (Js.falsy (secrets !! "BASIC_PASSWORD"))
  && negb (Js.falsy (secrets !! "BASIC_USERNAME")) = false.
Proof.
  intros [H|H]; rewrite (absent_falsy _ H); [reflexivity|apply andb_false_r].
Qed.

Lemma auth_authorization_code (token : string) :
  absent (secrets !! "BEARER_AUTH_TOKEN") ->
  absent (secrets !! "BASIC_PASSWORD") \/ absent (secrets !! "BASIC_USERNAME") ->
  present (secrets !! "OAUTH2_AUTHORIZATION_CODE_ACCESS_TOKEN") token ->
  exists h, Utils.getAuthorizationHeader w context tr = (Return h, tr)
            /\ bearer_of token h.
Proof.
  intros Hb Hbasic H. unfold Utils.getAuthorizationHeader. fold secrets.
  rewrite (absent_falsy _ Hb), (basic_incomplete Hbasic).
  rewrite (present_falsy _ _ H), (present_str _ _ H). cbn [negb].
  eexists. split; [reflexivity|]. apply bearer_of_intro.
Qed.

Lemma auth_client_credentials (secret : string) :
  absent (secrets !! "BEARER_AUTH_TOKEN") ->
  absent (secrets !! "BASIC_PASSWORD") \/ absent (secrets !! "BASIC_USERNAME") ->
  absent (secrets !! "OAUTH2_AUTHORIZATION_CODE_ACCESS_TOKEN") ->
  present (secrets !! "OAUTH2_CLIENT_CREDENTIALS_CLIENT_SECRET") secret ->
  (absent (env !! "OAUTH2_CLIENT_CREDENTIALS_TOKEN_URL")
   \/ absent (env !! "OAUTH2_CLIENT_CREDENTIALS_CLIENT_ID") ->
   exists m, Utils.getAuthorizationHeader w context tr = (Throw (Error m), tr)
             /\ JsString.includes m "OAuth2 Client Credentials" = true) /\
  (forall url id,
     present (env !! "OAUTH2_CLIENT_CREDENTIALS_TOKEN_URL") url ->
     present (env !! "OAUTH2_CLIENT_CREDENTIALS_CLIENT_ID") id ->
     Utils.getAuthorizationHeader w context tr
     = (let! token :=
          Utils.getClientCredentialsToken w
            {| Utils.tokenUrl := Some url;
               Utils.clientId := Some id;
               Utils.clientSecret := Some secret;
               Utils.scope := env !! "OAUTH2_CLIENT_CREDENTIALS_SCOPE";
               Utils.audience := env !! "OAUTH2_CLIENT_CREDENTIALS_AUDIENCE";
               Utils.authStyle := env !! "OAUTH2_CLIENT_CREDENTIALS_AUTH_STYLE" |} in
        let! text := lift (Js.to_string token) in
        ret ("Bearer " +:+ text)) tr).
Proof.
  intros Hb Hbasic Hc H.
  split.
  - intros Henv. unfold Utils.getAuthorizationHeader. fold secrets env.
    rewrite (absent_falsy _ Hb), (basic_incomplete Hbasic), (absent_falsy _ Hc).
    rewrite (present_falsy _ _ H). cbn [negb].
    assert (Js.falsy (env !! "OAUTH2_CLIENT_CREDENTIALS_TOKEN_URL")
            || Js.falsy (env !! "OAUTH2_CLIENT_CREDENTIALS_CLIENT_ID") = true) as ->.
    { destruct Henv as [E|E]; rewrite (absent_falsy _ E);
        [reflexivity | apply orb_true_r]. }
    eexists. split; reflexivity.
  - intros url id Hu Hi. unfold Utils.getAuthorizationHeader. fold secrets env.
    rewrite (absent_falsy _ Hb), (basic_incomplete Hbasic), (absent_falsy _ Hc).
    rewrite (present_falsy _ _ H), (present_falsy _ _ Hu), (present_falsy _ _ Hi).
    cbn [negb orb].
    destruct Hu as [-> _], Hi as [-> _], H as [-> _]. reflexivity.
Qed.

Lemma auth_none :
  absent (secrets !! "BEARER_AUTH_TOKEN") ->
  absent (secrets !! "BASIC_PASSWORD") \/ absent (secrets !! "BASIC_USERNAME") ->
  absent (secrets !! "OAUTH2_AUTHORIZATION_CODE_ACCESS_TOKEN") ->
  absent (secrets !! "OAUTH2_CLIENT_CREDENTIALS_CLIENT_SECRET") ->
  exists m, Utils.getAuthorizationHeader w context tr = (Throw (Error m), tr)
            /\ JsString.includes m "No authentication configured" = true.
Proof.
  intros Hb Hbasic Hc Hs. unfold Utils.getAuthorizationHeader. fold secrets.
  rewrite (absent_falsy _ Hb), (basic_incomplete Hbasic), (absent_falsy _ Hc).
  rewrite (absent_falsy _ Hs). cbn [negb].
  eexists. split; reflexivity.
Qed.

End AuthorizationHeader.

Lemma auth_header_prefix (w : World) (context : Context.t)
    (tr tr' : list Request.t) (h : string) :
  Utils.getAuthorizationHeader w context tr = (Return h, tr') ->
  JsString.startsWith h "Bearer " = true \/ JsString.startsWith h "Basic " = true.
Proof.
  unfold Utils.getAuthorizationHeader.
  repeat match goal with
         | |- context [Js.falsy ?x] => destruct (Js.falsy x) eqn:?
         end;
    cbn [negb andb orb]; unfold ret, throw, bind; intros H;
    try discriminate H.
  all: try (injection H as <- _; right; apply startsWith_append).
  all: try (injection H as <- _; left;
            match goal with
            | |- context [if ?c then _ else _] => destruct c eqn:E
            end; [exact E | apply startsWith_append]).
  all: match type of H with
       | context [Utils.getClientCredentialsToken ?a ?b ?c] =>
           destruct (Utils.getClientCredentialsToken a b c) as [[token|e] tr1]
       end; [|discriminate H].
  all: unfold lift in H; destruct (Js.to_string token) as [text|e];
    [injection H as <- _; left; apply startsWith_append | discriminate H].
Qed.

(** ** Claims about the utilities *)

(** C2. [getAuthorizationHeader] selects among exactly four schemes by
    the secrets that are present, in this order: the bearer token first,
    then basic credentials (user name and password both present), then
    the OAuth2 authorization-code access token, then OAuth2 client
    credentials; when none applies it throws an error that mentions
    'No authentication configured'. *)
Theorem getAuthorizationHeader_priority
    (w : World) (context : Context.t) (tr : list Request.t) :
  let env : gmap string string := default ∅ (Context.environment context) in
  let secrets : gmap string string := default ∅ (Context.secrets context) in
  let run := Utils.getAuthorizationHeader w context tr in
  let no_basic :=
    absent (secrets !! "BASIC_PASSWORD") \/ absent (secrets !! "BASIC_USERNAME") in
  (forall token,
     present (secrets !! "BEARER_AUTH_TOKEN") token ->
     exists h, run = (Return h, tr) /\ bearer_of token h) /\
  (forall user password,
     absent (secrets !! "BEARER_AUTH_TOKEN") ->
     present (secrets !! "BASIC_USERNAME") user ->
     present (secrets !! "BASIC_PASSWORD") password ->
     run = (Return ("Basic " +:+ Encode.btoa (user +:+ ":" +:+ password)), tr)) /\
  (forall token,
     absent (secrets !! "BEARER_AUTH_TOKEN") -> no_basic ->
     present (secrets !! "OAUTH2_AUTHORIZATION_CODE_ACCESS_TOKEN") token ->
     exists h, run = (Return h, tr) /\ bearer_of token h) /\
  (forall secret url id,
     absent (secrets !! "BEARER_AUTH_TOKEN") -> no_basic ->
     absent (secrets !! "OAUTH2_AUTHORIZATION_CODE_ACCESS_TOKEN") ->
     present (secrets !! "OAUTH2_CLIENT_CREDENTIALS_CLIENT_SECRET") secret ->
     present (env !! "OAUTH2_CLIENT_CREDENTIALS_TOKEN_URL") url ->
     present (env !! "OAUTH2_CLIENT_CREDENTIALS_CLIENT_ID") id ->
     run = (let! token :=
              Utils.getClientCredentialsToken w
                {| Utils.tokenUrl := Some url;
                   Utils.clientId := Some id;
                   Utils.clientSecret := Some secret;
                   Utils.scope := env !! "OAUTH2_CLIENT_CREDENTIALS_SCOPE";
                   Utils.audience := env !! "OAUTH2_CLIENT_CREDENTIALS_AUDIENCE";
                   Utils.authStyle := env !! "OAUTH2_CLIENT_CREDENTIALS_AUTH_STYLE" |} in
            let! text := lift (Js.to_string token) in
            ret ("Bearer " +:+ text)) tr) /\
  (forall secret,
     absent (secrets !! "BEARER_AUTH_TOKEN") -> no_basic ->
     absent (secrets !! "OAUTH2_AUTHORIZATION_CODE_ACCESS_TOKEN") ->
     present (secrets !! "OAUTH2_CLIENT_CREDENTIALS_CLIENT_SECRET") secret ->
     absent (env !! "OAUTH2_CLIENT_CREDENTIALS_TOKEN_URL")
     \/ absent (env !! "OAUTH2_CLIENT_CREDENTIALS_CLIENT_ID") ->
     exists m, run = (Throw (Error m), tr)
               /\ JsString.includes m "OAuth2 Client Credentials" = true) /\
  (absent (secrets !! "BEARER_AUTH_TOKEN") -> no_basic ->
   absent (secrets !! "OAUTH2_AUTHORIZATION_CODE_ACCESS_TOKEN") ->
   absent (secrets !! "OAUTH2_CLIENT_CREDENTIALS_CLIENT_SECRET") ->
   exists m, run = (Throw (Error m), tr)
             /\ JsString.includes m "No authentication configured" = true).
Proof.
  intros env secrets run no_basic. repeat apply conj.
  - apply auth_bearer_token.
  - apply auth_basic.
  - apply auth_authorization_code.
  - intros secret url id Hb Hn Hc Hs Hu Hi.
    now apply (proj2 (auth_client_credentials w context tr secret Hb Hn Hc Hs)).
  - intros secret Hb Hn Hc Hs.
    apply (proj1 (auth_client_credentials w context tr secret Hb Hn Hc Hs)).
  - apply auth_none.
Qed.

Lemma getAuthorizationHeader_priority_witness :
  Utils.getAuthorizationHeader offline basic_context []
  = (Return "Basic dXNlcjpwYXNz", []).
Proof.
  apply (proj1 (proj2 (getAuthorizationHeader_priority offline basic_context [])) "user" "pass").
  - left. reflexivity.
  - split; [reflexivity | discriminate].
  - split; [reflexivity | discriminate].
Defined.

(** C10. Every value [getAuthorizationHeader] returns starts with
    'Bearer ' or 'Basic '; in the bearer-token and authorization-code
    branches a token that already starts with 'Bearer ' is returned as
    it is, and otherwise 'Bearer ' is put in front exactly once. *)
Theorem getAuthorizationHeader_prefix (w : World) (context : Context.t) :
  let secrets : gmap string string := default ∅ (Context.secrets context) in
  (forall tr tr' h,
     Utils.getAuthorizationHeader w context tr = (Return h, tr') ->
     JsString.startsWith h "Bearer " = true
     \/ JsString.startsWith h "Basic " = true) /\
  (forall tr token,
     present (secrets !! "BEARER_AUTH_TOKEN") token ->
     exists h, Utils.getAuthorizationHeader w context tr = (Return h, tr)
               /\ bearer_of token h) /\
  (forall tr token,
     absent (secrets !! "BEARER_AUTH_TOKEN") ->
     absent (secrets !! "BASIC_PASSWORD") \/ absent (secrets !! "BASIC_USERNAME") ->
     present (secrets !! "OAUTH2_AUTHORIZATION_CODE_ACCESS_TOKEN") token ->
     exists h, Utils.getAuthorizationHeader w context tr = (Return h, tr)
               /\ bearer_of token h).
Proof.
  intros secrets. repeat apply conj.
  - intros tr tr' h. apply auth_header_prefix.
  - intros tr token. apply auth_bearer_token.
  - intros tr token. apply auth_authorization_code.
Qed.

Lemma getAuthorizationHeader_prefix_witness :
  exists h, Utils.getAuthorizationHeader offline bearer_context [] = (Return h, [])
            /\ bearer_of "test-access-token" h.
Proof.
  apply (proj1 (proj2 (getAuthorizationHeader_prefix offline bearer_context)) []).
  split; [reflexivity | discriminate].
Defined.

(** ** Claims about [halt] and [error] *)

(** C7. For every input the [halt] entry point returns without
    throwing and without any HTTP request; the result has status
    'halted', the reason of the parameters, and the user name of the
    parameters when that is present and 'unknown' otherwise. *)
Theorem halt_returns_halted
    (w : World) (params : Params.t) (context : Context.t) (tr : list Request.t) :
  exists r,
    Script.halt w params context tr = (Return r, tr) /\
    HaltResult.status r = "halted" /\
    HaltResult.reason r = Params.reason params /\
    (forall u, present (Params.username params) u -> HaltResult.username r = u) /\
    (absent (Params.username params) -> HaltResult.username r = "unknown").
Proof.
  eexists. split; [reflexivity|]. cbn. repeat split.
  - intros u Hu. now rewrite (present_or_l _ _ _ Hu).
  - intros Hu. now rewrite (absent_or_l _ _ Hu).
Qed.

Lemma halt_returns_halted_witness :
  exists r,
    Script.halt offline sample_params bearer_context [] = (Return r, [])
    /\ HaltResult.username r = "test.user@example.com".
Proof.
  destruct (halt_returns_halted offline sample_params bearer_context [])
    as (r & Hr & _ & _ & Hname & _).
  exists r. split; [exact Hr|].
  apply Hname. split; [reflexivity | discriminate].
Defined.

(** The handler of [src/script.mjs] rethrows whatever it is given. *)
Lemma error_rethrows (e : exn) (context : Context.t) (tr : list Request.t) :
  Script.error {| ErrorParams.error := e |} context tr = (Throw e, tr).
Proof. reflexivity. Qed.

Lemma retryable_includes (m : string) :
  retryable m <->
  JsString.includes m "429" || JsString.includes m "502"
  || JsString.includes m "503" || JsString.includes m "504" = true.
Proof.
  unfold retryable. rewrite !orb_true_iff. tauto.
Qed.

Lemma fatal_includes (m : string) :
  fatal m <->
  JsString.includes m "401" || JsString.includes m "403"
  || JsString.includes m "is required" || JsString.includes m "not found" = true.
Proof.
  unfold fatal. rewrite !orb_true_iff. tauto.
Qed.

(** The claim C3 as the specification states it fails for both error
    handlers of the repository: the handler of [src/script.mjs] rethrows
    a rate-limit error instead of asking for a retry, and the earlier
    handler asks for a retry on a 'not found' message that also contains
    '429'. *)
Lemma error_classification_counterexample :
  ~ classifies_by_substring Script.error /\
  ~ classifies_by_substring Legacy.error.
Proof.
  split; intros H.
  - destruct (H (Error "Rate limit exceeded: 429") bearer_context [])
      as [Hretry _].
    cbv zeta in Hretry.
    assert (Hr : retryable "Rate limit exceeded: 429") by (left; reflexivity).
    specialize (Hretry Hr). rewrite error_rethrows in Hretry. discriminate.
  - destruct (H (Error "User not found: user429@example.com") bearer_context [])
      as (_ & Hfatal & _).
    cbv zeta in Hfatal.
    assert (Hf : fatal "User not found: user429@example.com")
      by (do 3 right; reflexivity).
    specialize (Hfatal Hf). vm_compute in Hfatal. discriminate.
Qed.

(** C3 (amended). The error handler of [src/script.mjs] rethrows every
    error.  The earlier handler classifies by substrings of the message,
    the retryable codes first: a message containing '429', '502', '503'
    or '504' gives status 'retry_requested'; otherwise a message
    containing '401', '403', 'is required' or 'not found' is rethrown;
    any other message gives status 'retry_requested'. *)
Theorem error_handlers_classification
    (e : exn) (context : Context.t) (tr : list Request.t) :
  Script.error {| ErrorParams.error := e |} context tr = (Throw e, tr) /\
  let run := Legacy.error {| ErrorParams.error := e |} context tr in
  (retryable (message e) -> run = (Return retry_requested, tr)) /\
  (~ retryable (message e) -> fatal (message e) -> run = (Throw e, tr)) /\
  (~ retryable (message e) -> ~ fatal (message e) ->
   run = (Return retry_requested, tr)).
Proof.
  split; [apply error_rethrows|]. cbv zeta.
  unfold Legacy.error. cbn [ErrorParams.error].
  rewrite retryable_includes, fatal_includes.
  destruct (JsString.includes (message e) "429" || JsString.includes (message e) "502"
            || JsString.includes (message e) "503"
            || JsString.includes (message e) "504");
    destruct (JsString.includes (message e) "401" || JsString.includes (message e) "403"
              || JsString.includes (message e) "is required"
              || JsString.includes (message e) "not found");
    repeat split; intros; try reflexivity; try congruence.
Qed.

Lemma error_handlers_classification_witness :
  Legacy.error {| ErrorParams.error := Error "Auth failed: 401" |} bearer_context []
  = (Throw (Error "Auth failed: 401"), []).
Proof.
  apply (proj1 (proj2 (proj2 (error_handlers_classification
                                (Error "Auth failed: 401") bearer_context [])))).
  - unfold retryable. vm_compute. intuition discriminate.
  - left. reflexivity.
Defined.

(** ** Equations of the execution monad *)

Lemma bind_Return {A B} (m : M A) (k : A -> M B) tr a tr' :
  m tr = (Return a, tr') -> bind m k tr = k a tr'.
Proof. unfold bind. now intros ->. Qed.

Lemma bind_Throw {A B} (m : M A) (k : A -> M B) tr e tr' :
  m tr = (Throw e, tr') -> bind m k tr = (Throw e, tr').
Proof. unfold bind. now intros ->. Qed.

Lemma bind_lift {A B} (o : outcome A) (k : A -> M B) tr :
  bind (lift o) k tr
  = match o with Return a => k a tr | Throw e => (Throw e, tr) end.
Proof. unfold bind, lift. now destruct o. Qed.

Lemma bind_ret {A B} (a : A) (k : A -> M B) tr : bind (ret a) k tr = k a tr.
Proof. reflexivity. Qed.

Lemma bind_throw {A B} (e : exn) (k : A -> M B) tr :
  bind (throw e) k tr = (Throw e, tr).
Proof. reflexivity. Qed.

Lemma bind_json {A} (r : Response.t) (k : value -> M A) tr :
  bind (json r) k tr
  = match Response.json r with
    | Some v => k v tr
    | None => (Throw (SyntaxError "Unexpected token in JSON"), tr)
    end.
Proof. unfold json. now destruct (Response.json r). Qed.

Lemma bind_bind {A B C} (m : M A) (f : A -> M B) (g : B -> M C) tr :
  bind (bind m f) g tr = bind m (fun a => bind (f a) g) tr.
Proof. unfold bind. now destruct (m tr) as [[a|e] tr']. Qed.

(** ** The duplicate check *)

Lemma duplicateError_duplicate (entry : value) :
  duplicate_entry entry ->
  exists r, Script.duplicateError entry = Return r /\ Js.truthy r = true.
Proof.
  unfold Script.duplicateError. intros [H | (m & Hm & Hinc)].
  - rewrite H. cbn. eauto.
  - destruct (Js.get entry "errorCode") as [c|e] eqn:Hc.
    + destruct (Js.is_str c "DUPLICATE_VALUE"); [cbn; eauto|].
      rewrite Hm, Hinc. eauto.
    + destruct entry; cbn in Hc, Hm; discriminate.
Qed.

Lemma duplicateError_readable (entry : value) :
  readable_entry entry -> exists r, Script.duplicateError entry = Return r.
Proof.
  unfold Script.duplicateError. intros (m & Hm & Hcase).
  destruct (Js.get entry "errorCode") as [c|e] eqn:Hc.
  - destruct (Js.is_str c "DUPLICATE_VALUE"); [eauto|].
    rewrite Hm. destruct Hcase as [-> | [-> | [s ->]]]; eauto.
  - destruct entry; cbn in Hc, Hm; discriminate.
Qed.

Lemma duplicateError_plain (entry : value) :
  readable_entry entry -> ~ duplicate_entry entry ->
  exists r, Script.duplicateError entry = Return r /\ Js.truthy r = false.
Proof.
  unfold Script.duplicateError. intros (m & Hm & Hcase) Hnot.
  destruct (Js.get entry "errorCode") as [c|e] eqn:Hc.
  - destruct (Js.is_str c "DUPLICATE_VALUE") eqn:Hdup.
    + exfalso. apply Hnot. left.
      destruct c; try discriminate Hdup.
      cbn in Hdup. apply String.eqb_eq in Hdup. now subst.
    + rewrite Hm. destruct Hcase as [-> | [-> | [s ->]]]; eauto.
      destruct (JsString.includes (JsString.toLowerCase s) "duplicate") eqn:Hinc;
        [|eauto].
      exfalso. apply Hnot. right. eauto.
  - destruct entry; cbn in Hc, Hm; discriminate.
Qed.

Lemma some_elems_found (f : value -> outcome value)
    (before : list value) (x : value) (after : list value) :
  Forall (fun e => exists r, f e = Return r) before ->
  (exists r, f x = Return r /\ Js.truthy r = true) ->
  Js.some_elems f (before ++ x :: after) = Return true.
Proof.
  intros Hbefore (r & Hr & Ht).
  induction Hbefore as [|e before (re & He) _ IH]; cbn.
  - now rewrite Hr, Ht.
  - rewrite He. now destruct (Js.truthy re).
Qed.

Lemma some_elems_none (f : value -> outcome value) (entries : list value) :
  Forall (fun e => exists r, f e = Return r /\ Js.truthy r = false) entries ->
  Js.some_elems f entries = Return false.
Proof.
  induction 1 as [|e entries (r & Hr & Ht) _ IH]; cbn; [reflexivity|].
  now rewrite Hr, Ht.
Qed.

Ltac by_run := vm_compute; reflexivity.

(** The first two steps of a sample run against [scripted]. *)
Ltac sample_run :=
  lazymatch goal with
  | |- query_answered _ _ _ _ _ _ _ => exists []; repeat split; by_run
  | |- found_user _ _ => split; [by_run | do 3 eexists; repeat split; by_run]
  | |- assignment_answered _ _ _ _ _ _ _ _ => by_run
  end.

(** ** Step 1 and step 2 *)

Lemma found_user_resolved (userResponse : Response.t) (userId : value) :
  found_user userResponse userId -> printable userId ->
  resolved_user userResponse userId.
Proof.
  intros (Hok & userResult & record & others & Hjson & Hrecords & Hid) Hprint.
  split; [exact Hok|].
  exists userResult, (VArr (record :: others)),
         (VNum (Z.of_nat (length (record :: others)))), record.
  repeat split; auto.
Qed.

Lemma resolved_passes_check (userResponse : Response.t) (userId : value) :
  resolved_user userResponse userId -> records_pass_check userResponse.
Proof.
  intros (Hok & userResult & records & len & first
          & Hjson & Hrecords & Htruthy & Hlen & Hzero & _).
  split; [exact Hok|]. exists userResult, records, len. repeat split; auto.
  intros elems -> ->. cbn in Hlen. injection Hlen as <-. discriminate Hzero.
Qed.

Lemma invoke_resolved
    (w : World) (params : Params.t) (context : Context.t)
    (baseUrl authHeader : string) (userResponse : Response.t)
    (tr1 : list Request.t) (userId : value) :
  query_answered w params context baseUrl authHeader userResponse tr1 ->
  resolved_user userResponse userId ->
  Script.invoke w params context []
  = assignment_step w params baseUrl authHeader userId tr1.
Proof.
  intros (tr0 & Hbase & Hauth & Hfind)
         (Hok & userResult & records & len & first
          & Hjson & Hrecords & Htruthy & Hlen & Hzero & Hfirst & Hid
          & text & Htext).
  unfold Script.invoke.
  rewrite bind_lift, Hbase.
  rewrite (bind_Return _ _ _ _ _ Hauth), (bind_Return _ _ _ _ _ Hfind).
  rewrite Hok. cbn [negb].
  rewrite bind_json, Hjson, bind_lift, Hrecords, Htruthy. cbn [negb].
  rewrite bind_bind, bind_lift, Hlen, bind_ret, Hzero.
  rewrite bind_lift, Hfirst, bind_lift, Hid, bind_lift, Htext.
  reflexivity.
Qed.

(** *** The requests of a run *)

Lemma assignment_post_inv (req : Request.t) :
  assignment_post req ->
  Request.method req = "POST" /\
  exists authHeader,
    Request.headers req = [("Authorization", authHeader);
                           ("Accept", "application/json");
                           ("Content-Type", "application/json")].
Proof.
  intros (w & userId & permissionSetId & baseUrl & authHeader & tr & o & H).
  unfold Script.createPermissionSetAssignment, fetch in H.
  destruct (respond w _ _); injection H as _ H;
    apply app_inv_head in H; injection H as <-; eauto.
Qed.

Lemma fetch_trace (w : World) (req : Request.t) tr o tr' :
  fetch w req tr = (o, tr') -> tr' = tr ++ [req].
Proof.
  unfold fetch. destruct (respond w _ _); now intros [= _ <-].
Qed.

Lemma bind_fetch_trace {A} (w : World) (req : Request.t)
    (k : Response.t -> M A) tr o tr' :
  (forall r t o' t', k r t = (o', t') -> t' = t) ->
  bind (fetch w req) k tr = (o, tr') -> tr' = tr ++ [req].
Proof.
  intros Hk. unfold bind.
  destruct (fetch w req tr) as [[response|e] tr1] eqn:Hfetch;
    apply fetch_trace in Hfetch; subst tr1.
  - apply Hk.
  - now intros [= _ <-].
Qed.

(** Case analysis on every test of a computation that sends nothing. *)
Ltac silent_cases :=
  unfold bind, json, lift, ret, throw; cbv beta;
  repeat (match goal with
          | |- context [match Response.json ?r with _ => _ end] =>
              destruct (Response.json r)
          | |- context [match Js.to_string ?a with _ => _ end] =>
              destruct (Js.to_string a)
          | |- context [match Js.get ?a ?k with _ => _ end] =>
              destruct (Js.get a k)
          | |- context [if ?b then _ else _] => destruct b
          end; cbv beta iota);
  now intros [= _ <-].

Lemma token_request_trace (w : World) (config : Utils.Config) tr o tr' :
  Utils.getClientCredentialsToken w config tr = (o, tr') ->
  tr' = tr \/ exists req, tr' = tr ++ [req] /\ ~ assignment_post req.
Proof.
  unfold Utils.getClientCredentialsToken.
  destruct (_ || _ || _); [intros [= _ <-]; now left|].
  destruct (Js.is_str _ _); intros H; right; eexists; split.
  1, 3: eapply bind_fetch_trace; [|exact H]; intros r t o' t'; silent_cases.
  all: intros Hpost; apply assignment_post_inv in Hpost as (_ & a & Hh);
    cbn [Request.headers app] in Hh; discriminate Hh.
Qed.

Lemma auth_trace (w : World) (context : Context.t) o tr0 :
  Utils.getAuthorizationHeader w context [] = (o, tr0) ->
  Forall (fun req => ~ assignment_post req) tr0.
Proof.
  unfold Utils.getAuthorizationHeader.
  repeat match goal with
         | |- context [Js.falsy ?x] => destruct (Js.falsy x)
         end;
    cbn [negb andb orb]; try (intros [= _ <-]; constructor).
  all: unfold bind;
    match goal with
    | |- context [Utils.getClientCredentialsToken ?a ?b ?c] =>
        destruct (Utils.getClientCredentialsToken a b c)
          as [[token|e] tr'] eqn:Htoken
    end;
    apply token_request_trace in Htoken as [-> | (req & -> & Hreq)];
    unfold lift, ret; try destruct (Js.to_string _);
    intros [= _ <-]; repeat constructor; assumption.
Qed.

Lemma user_query_trace (w : World) (username : option string)
    (baseUrl authHeader : string) tr0 o tr1 :
  Script.findUserByUsername w username baseUrl authHeader tr0 = (o, tr1) ->
  Forall (fun req => ~ assignment_post req) tr0 ->
  Forall (fun req => ~ assignment_post req) tr1.
Proof.
  intros Hfind Htr0. apply fetch_trace in Hfind as ->.
  apply Forall_app. split; [exact Htr0|]. repeat constructor.
  intros Hpost. apply assignment_post_inv in Hpost as (Hmethod & _).
  discriminate Hmethod.
Qed.

Lemma query_answered_trace (w : World) (params : Params.t) (context : Context.t)
    (baseUrl authHeader : string) (userResponse : Response.t) tr1 :
  query_answered w params context baseUrl authHeader userResponse tr1 ->
  Forall (fun req => ~ assignment_post req) tr1.
Proof.
  intros (tr0 & _ & Hauth & Hfind).
  eapply user_query_trace; [exact Hfind|]. eapply auth_trace, Hauth.
Qed.

Lemma assignment_step_trace (w : World) (params : Params.t)
    (baseUrl authHeader : string) (userId : value) tr1 o tr :
  assignment_step w params baseUrl authHeader userId tr1 = (o, tr) ->
  exists req, tr = tr1 ++ [req] /\ assignment_post req.
Proof.
  unfold assignment_step. intros H.
  destruct (Script.createPermissionSetAssignment w userId
              (Params.permissionSetId params) baseUrl authHeader tr1)
    as [[assignmentResponse|e] tr2] eqn:Hpost.
  - assert (Htr2 : exists req, tr2 = tr1 ++ [req] /\ assignment_post req).
    { pose proof Hpost as Hsent. apply fetch_trace in Hsent.
      eexists. split; [exact Hsent|].
      exists w, userId, (Params.permissionSetId params), baseUrl, authHeader,
             tr1, (Return assignmentResponse).
      now rewrite <- Hsent. }
    rewrite (bind_Return _ _ _ _ _ Hpost) in H.
    assert (tr = tr2) as ->; [|exact Htr2].
    revert H. unfold bind, json, lift, ret, throw. cbv beta.
    repeat (match goal with
            | |- context [match Response.json ?r with _ => _ end] =>
                destruct (Response.json r)
            | |- context [match Js.to_string ?a with _ => _ end] =>
                destruct (Js.to_string a)
            | |- context [match Js.get ?a ?k with _ => _ end] =>
                destruct (Js.get a k)
            | |- context [match Js.get0 ?a with _ => _ end] =>
                destruct (Js.get0 a)
            | |- context [match Js.some ?a ?f with _ => _ end] =>
                destruct (Js.some a f)
            | |- context [if ?b then _ else _] => destruct b
            end; cbv beta iota);
      now intros [= _ <-].
  - rewrite (bind_Throw _ _ _ _ _ Hpost) in H. injection H as _ <-.
    pose proof Hpost as Hsent. apply fetch_trace in Hsent.
    eexists. split; [exact Hsent|].
    exists w, userId, (Params.permissionSetId params), baseUrl, authHeader,
           tr1, (Throw e).
    now rewrite <- Hsent.
Qed.

(** Every run of [invoke] either throws before step 2, having sent no
    assignment POST, or resolves the user and continues with step 2. *)
Lemma invoke_cases (w : World) (params : Params.t) (context : Context.t) o tr :
  Script.invoke w params context [] = (o, tr) ->
  (exists e, o = Throw e /\ Forall (fun req => ~ assignment_post req) tr) \/
  (exists baseUrl authHeader userResponse tr1 userId,
     query_answered w params context baseUrl authHeader userResponse tr1 /\
     resolved_user userResponse userId /\
     assignment_step w params baseUrl authHeader userId tr1 = (o, tr)).
Proof.
  intros H. unfold Script.invoke in H. rewrite bind_lift in H.
  destruct (Utils.getBaseURL params context) as [baseUrl|e] eqn:Hbase.
  2: { injection H as <- <-. left. eauto. }
  destruct (Utils.getAuthorizationHeader w context [])
    as [[authHeader|e] tr0] eqn:Hauth.
  2: { rewrite (bind_Throw _ _ _ _ _ Hauth) in H. injection H as <- <-.
       left. eexists. split; [reflexivity|]. eapply auth_trace, Hauth. }
  rewrite (bind_Return _ _ _ _ _ Hauth) in H.
  destruct (Script.findUserByUsername w (Params.username params)
              baseUrl authHeader tr0)
    as [[userResponse|e] tr1] eqn:Hfind.
  2: { rewrite (bind_Throw _ _ _ _ _ Hfind) in H. injection H as <- <-.
       left. eexists. split; [reflexivity|].
       eapply user_query_trace; [exact Hfind|]. eapply auth_trace, Hauth. }
  rewrite (bind_Return _ _ _ _ _ Hfind) in H.
  assert (Hquery : query_answered w params context baseUrl authHeader
                                  userResponse tr1)
    by (exists tr0; auto).
  pose proof (query_answered_trace _ _ _ _ _ _ _ Hquery) as Htr1.
  assert (Hthrown : forall e, (Throw e, tr1) = (o, tr) ->
            exists e, o = Throw e /\ Forall (fun req => ~ assignment_post req) tr)
    by (intros e [= <- <-]; eauto).
  destruct (Response.ok userResponse) eqn:Hok; cbn [negb] in H.
  2: { left. eapply Hthrown, H. }
  rewrite bind_json in H.
  destruct (Response.json userResponse) as [userResult|] eqn:Hjson.
  2: { left. eapply Hthrown, H. }
  rewrite bind_lift in H.
  destruct (Js.get userResult "records") as [records|e] eqn:Hrecords.
  2: { left. eapply Hthrown, H. }
  destruct (Js.truthy records) eqn:Htruthy; cbn [negb] in H.
  2: { rewrite bind_ret in H. left. eapply Hthrown, H. }
  rewrite bind_bind, bind_lift in H.
  destruct (Js.get records "length") as [len|e] eqn:Hlen.
  2: { left. eapply Hthrown, H. }
  rewrite bind_ret in H.
  destruct (Js.is_num len 0) eqn:Hzero.
  1: { left. eapply Hthrown, H. }
  rewrite bind_lift in H.
  destruct (Js.get0 records) as [first|e] eqn:Hfirst.
  2: { left. eapply Hthrown, H. }
  rewrite bind_lift in H.
  destruct (Js.get first "Id") as [userId|e] eqn:Hid.
  2: { left. eapply Hthrown, H. }
  rewrite bind_lift in H.
  destruct (Js.to_string userId) as [text|e] eqn:Htext.
  2: { left. eapply Hthrown, H. }
  right. exists baseUrl, authHeader, userResponse, tr1, userId.
  split; [exact Hquery|]. split; [|exact H].
  split; [exact Hok|].
  exists userResult, records, len, first.
  repeat split; try assumption. now exists text.
Qed.

Lemma invoke_no_records
    (w : World) (params : Params.t) (context : Context.t)
    (baseUrl authHeader : string) (userResponse : Response.t)
    (tr1 : list Request.t) (userResult : value) :
  query_answered w params context baseUrl authHeader userResponse tr1 ->
  Response.ok userResponse = true ->
  Response.json userResponse = Some userResult ->
  Js.get userResult "records" = Return VUndefined
  \/ Js.get userResult "records" = Return (VArr []) ->
  Script.invoke w params context []
  = (Throw (Error ("User not found: " +:+ Utils.str (Params.username params))),
     tr1).
Proof.
  intros (tr0 & Hbase & Hauth & Hfind) Hok Hjson Hrecords.
  unfold Script.invoke.
  rewrite bind_lift, Hbase.
  rewrite (bind_Return _ _ _ _ _ Hauth), (bind_Return _ _ _ _ _ Hfind).
  rewrite Hok. cbn [negb].
  rewrite bind_json, Hjson, bind_lift.
  destruct Hrecords as [-> | ->]; cbn [Js.truthy negb].
  - rewrite bind_ret. reflexivity.
  - rewrite bind_bind, bind_lift. cbn [Js.get].
    change (String.eqb "length" "length") with true. cbv iota.
    rewrite bind_ret. reflexivity.
Qed.

Lemma invoke_query_not_ok
    (w : World) (params : Params.t) (context : Context.t)
    (baseUrl authHeader : string) (userResponse : Response.t)
    (tr1 : list Request.t) :
  query_answered w params context baseUrl authHeader userResponse tr1 ->
  Response.ok userResponse = false ->
  exists m, Script.invoke w params context [] = (Throw (Error m), tr1)
            /\ JsString.startsWith m "Failed to query user " = true.
Proof.
  intros (tr0 & Hbase & Hauth & Hfind) Hok.
  unfold Script.invoke.
  rewrite bind_lift, Hbase.
  rewrite (bind_Return _ _ _ _ _ Hauth), (bind_Return _ _ _ _ _ Hfind).
  rewrite Hok. cbn [negb].
  eexists. split; [reflexivity | apply startsWith_append].
Qed.

(** ** Replacing the records beyond the first *)

Section RecordsTail.

Variables (tail : list value) (w : World).

Lemma assoc_retail_records fields :
  Js.assoc "records" (retail_fields tail fields)
  = replace_tail tail (Js.assoc "records" fields).
Proof.
  induction fields as [|[k v] rest IH]; [reflexivity|].
  cbn [retail_fields Js.assoc].
  destruct (String.eqb "records" k) eqn:E.
  - apply String.eqb_eq in E as <-. reflexivity.
  - exact IH.
Qed.

Lemma assoc_retail_other k fields :
  String.eqb k "records" = false ->
  Js.assoc k (retail_fields tail fields) = Js.assoc k fields.
Proof.
  intros Hk. induction fields as [|[k' v] rest IH]; [reflexivity|].
  cbn [retail_fields Js.assoc].
  destruct (String.eqb k k') eqn:E; [|exact IH].
  apply String.eqb_eq in E as <-. now rewrite Hk.
Qed.

Lemma get_retail_other body k :
  String.eqb k "records" = false ->
  Js.get (retail_body tail body) k = Js.get body k.
Proof.
  intros Hk. destruct body; try reflexivity.
  cbn. now rewrite assoc_retail_other.
Qed.

Lemma get_retail_records body :
  Js.get (retail_body tail body) "records"
  = (let? records := Js.get body "records" in
     Return (replace_tail tail records)).
Proof.
  destruct body; try reflexivity.
  cbn. now rewrite assoc_retail_records.
Qed.

Lemma truthy_replace_tail v : Js.truthy (replace_tail tail v) = Js.truthy v.
Proof. now destruct v as [| | | | |[|x rest]|]. Qed.

Lemma get0_replace_tail v : Js.get0 (replace_tail tail v) = Js.get0 v.
Proof. now destruct v as [| | | | |[|x rest]|]. Qed.

Lemma length_replace_tail v len :
  Js.get v "length" = Return len ->
  exists len', Js.get (replace_tail tail v) "length" = Return len'
               /\ Js.is_num len' 0 = Js.is_num len 0.
Proof.
  destruct v as [| | | | |[|x rest]|]; cbn; intros H; eauto.
  injection H as <-. eauto.
Qed.

Lemma some_retail body f :
  Js.some (retail_body tail body) f = Js.some body f.
Proof. now destruct body. Qed.

Lemma fetch_retail req tr r tr' :
  fetch w req tr = (Return r, tr') ->
  fetch (with_records_tail tail w) req tr
  = (Return (retail_response tail r), tr').
Proof.
  unfold fetch. cbn [respond with_records_tail].
  destruct (respond w (length tr) req); [discriminate|].
  now intros [= <- <-].
Qed.

Lemma bind_Return_inv {A B} (m : M A) (k : A -> M B) tr b tr' :
  bind m k tr = (Return b, tr') ->
  exists a tr1, m tr = (Return a, tr1) /\ k a tr1 = (Return b, tr').
Proof.
  unfold bind. destruct (m tr) as [[a|e] tr1]; [eauto | discriminate].
Qed.

Lemma token_retail config tr token tr' :
  Utils.getClientCredentialsToken w config tr = (Return token, tr') ->
  Utils.getClientCredentialsToken (with_records_tail tail w) config tr
  = (Return token, tr').
Proof.
  unfold Utils.getClientCredentialsToken.
  destruct (_ || _ || _); [discriminate|].
  destruct (Js.is_str _ _); intros H;
    apply bind_Return_inv in H as (response & tr1 & Hfetch & Hk);
    rewrite (bind_Return _ _ _ _ _ (fetch_retail _ _ _ _ Hfetch));
    revert Hk; cbv beta;
    change (Response.ok (retail_response tail response))
      with (Response.ok response);
    destruct (Response.ok response); cbn [negb].
  2, 4: unfold bind, ret, throw;
    destruct (Response.json response); discriminate.
  all: rewrite !bind_json; cbn [Response.json retail_response];
    (destruct (Response.json response) as [data|]; [|discriminate]);
    cbn [option_map]; rewrite !bind_lift, get_retail_other by reflexivity;
    trivial.
Qed.

Lemma auth_retail (context : Context.t) tr h tr' :
  Utils.getAuthorizationHeader w context tr = (Return h, tr') ->
  Utils.getAuthorizationHeader (with_records_tail tail w) context tr
  = (Return h, tr').
Proof.
  unfold Utils.getAuthorizationHeader.
  repeat match goal with
         | |- context [Js.falsy ?x] => destruct (Js.falsy x)
         end;
    cbn [negb andb orb]; trivial.
  all: intros H; apply bind_Return_inv in H as (token & tr1 & Htoken & Hk);
    now rewrite (bind_Return _ _ _ _ _ (token_retail _ _ _ _ Htoken)).
Qed.

End RecordsTail.

Lemma query_answered_retail (tail : list value)
    (w : World) (params : Params.t) (context : Context.t)
    (baseUrl authHeader : string) (userResponse : Response.t) tr1 :
  query_answered w params context baseUrl authHeader userResponse tr1 ->
  query_answered (with_records_tail tail w) params context baseUrl authHeader
                 (retail_response tail userResponse) tr1.
Proof.
  intros (tr0 & Hbase & Hauth & Hfind). exists tr0.
  split; [exact Hbase|]. split; [now apply auth_retail|].
  now apply fetch_retail.
Qed.

Lemma resolved_user_retail (tail : list value)
    (userResponse : Response.t) (userId : value) :
  resolved_user userResponse userId ->
  resolved_user (retail_response tail userResponse) userId.
Proof.
  intros (Hok & userResult & records & len & first
          & Hjson & Hrecords & Htruthy & Hlen & Hzero & Hfirst & Hid & Hprint).
  destruct (length_replace_tail tail _ _ Hlen) as (len' & Hlen' & Hsame).
  split; [exact Hok|].
  exists (retail_body tail userResult), (replace_tail tail records), len', first.
  split; [cbn; now rewrite Hjson|].
  split; [now rewrite get_retail_records, Hrecords|].
  split; [now rewrite truthy_replace_tail|].
  split; [exact Hlen'|].
  split; [now rewrite Hsame|].
  split; [now rewrite get0_replace_tail|].
  split; [exact Hid | exact Hprint].
Qed.

Lemma assignment_step_result (w : World) (params : Params.t)
    (baseUrl authHeader : string) (userId : value) tr1 r tr :
  assignment_step w params baseUrl authHeader userId tr1 = (Return r, tr) ->
  exists assignmentId, r = success params baseUrl userId assignmentId.
Proof.
  unfold assignment_step. intros H.
  apply bind_Return_inv in H as (assignmentResponse & tr2 & _ & H).
  apply bind_Return_inv in H as (assignmentId & tr3 & _ & H).
  injection H as <- _. eauto.
Qed.

Lemma assignment_step_retail (tail : list value) (w : World) (params : Params.t)
    (baseUrl authHeader : string) (userId : value) tr1 r tr :
  assignment_step w params baseUrl authHeader userId tr1 = (Return r, tr) ->
  assignment_step (with_records_tail tail w) params baseUrl authHeader userId tr1
  = (Return r, tr).
Proof.
  unfold assignment_step. intros H.
  apply bind_Return_inv in H as (assignmentResponse & tr2 & Hpost & H).
  rewrite (bind_Return _ _ _ _ _ (fetch_retail tail _ _ _ _ _ Hpost)).
  revert H.
  change (Response.status (retail_response tail assignmentResponse))
    with (Response.status assignmentResponse).
  destruct (Response.status assignmentResponse =? 201).
  - unfold bind, json, lift, ret, throw. cbn [Response.json retail_response].
    destruct (Response.json assignmentResponse) as [body|]; cbn [option_map];
      [|discriminate].
    rewrite get_retail_other by reflexivity. trivial.
  - destruct (Response.status assignmentResponse =? 400); [|trivial].
    rewrite !bind_bind, !bind_json. cbn [Response.json retail_response].
    destruct (Response.json assignmentResponse) as [body|]; [|discriminate].
    cbn [option_map]. rewrite !bind_bind, !bind_lift, some_retail.
    destruct (Js.some body Script.duplicateError) as [[|]|e]; trivial.
    unfold bind, lift, ret, throw.
    destruct (Js.get0 body) as [first|e]; [|discriminate].
    destruct (Js.nullish first); [cbn; discriminate|].
    destruct (Js.get first "message") as [m|e]; [|discriminate].
    destruct (Js.to_string _); discriminate.
Qed.

(** ** Reading a body *)

Lemma assoc_without (k : string) (fields : list (string * value)) :
  Js.has_own k fields = false -> Js.assoc k fields = VUndefined.
Proof.
  induction fields as [|[k' v] fields IH]; [reflexivity|].
  cbn [Js.has_own Js.assoc]. intros H.
  apply orb_false_iff in H as [-> H]. now apply IH.
Qed.

(** A member that a body other than [null] does not have reads as
    [undefined]. *)
Lemma get_without_field (body : value) :
  Js.nullish body = false -> has_field body "records" = false ->
  Js.get body "records" = Return VUndefined.
Proof.
  destruct body; try discriminate; intros _ Hfield; try reflexivity.
  cbn [Js.get]. now rewrite assoc_without.
Qed.

(** The message of the first entry of an array of readable entries can
    be read, and what the error text shows of it can be printed. *)
Lemma first_message (entries : list value) :
  Forall readable_entry entries ->
  exists m text,
    (if Js.nullish (hd VUndefined entries) then ret VUndefined
     else lift (Js.get (hd VUndefined entries) "message")) = ret m
    /\ Js.to_string (if Js.truthy m then m else VStr "Unknown error")
       = Return text.
Proof.
  intros Hread. destruct Hread as [|first rest (m & Hm & Hcase) _].
  - exists VUndefined. eexists. split; reflexivity.
  - cbn [hd]. exists m.
    assert (Js.nullish first = false) as ->
      by (destruct first; try reflexivity; discriminate Hm).
    rewrite Hm.
    destruct Hcase as [-> | [-> | [s ->]]];
      [| | destruct (Js.truthy (VStr s))];
      eexists; split; reflexivity.
Qed.

(** ** Claims about [invoke] *)

(** The run below satisfies the premises of C1 as stated, and throws a
    [TypeError]: the duplicate check reads [errorCode] of [null]. *)
Lemma duplicate_after_null_throws :
  ~ duplicate_tolerated_in_any_array.
Proof.
  intros H.
  edestruct (H (scripted [one_user; null_then_duplicate])
               sample_params bearer_context) as (r & Hr & _).
  - sample_run.
  - sample_run.
  - sample_run.
  - reflexivity.
  - reflexivity.
  - apply Exists_cons_tl, Exists_cons_hd. left. reflexivity.
  - vm_compute in Hr. discriminate Hr.
Qed.

(** C1 (amended). When the user query succeeds with at least one record
    whose [Id] can be converted to a string (it is not an object with a
    member named [toString], which the log line of the id cannot
    print), and the assignment POST is answered with status 400 and a
    JSON array in which some entry has error code 'DUPLICATE_VALUE' or a
    message containing 'duplicate' (in any letter case), and every entry
    before it is a value other than [null] whose message is absent,
    [null] or a string, [invoke] does not throw: it returns status
    'success' with a null assignment id. *)
Theorem invoke_duplicate_is_success
    (w : World) (params : Params.t) (context : Context.t)
    (baseUrl authHeader : string) (userResponse : Response.t)
    (tr1 : list Request.t) (userId : value)
    (assignmentResponse : Response.t) (tr2 : list Request.t)
    (before : list value) (dup : value) (after : list value) :
  query_answered w params context baseUrl authHeader userResponse tr1 ->
  found_user userResponse userId ->
  printable userId ->
  assignment_answered w params baseUrl authHeader userId tr1
                      assignmentResponse tr2 ->
  Response.status assignmentResponse = 400 ->
  Response.json assignmentResponse = Some (VArr (before ++ dup :: after)) ->
  Forall readable_entry before ->
  duplicate_entry dup ->
  Script.invoke w params context []
  = (Return (success params baseUrl userId VNull), tr2).
Proof.
  intros Hquery Hfound Hprint Hpost Hstatus Hbody Hbefore Hdup.
  rewrite (invoke_resolved _ _ _ _ _ _ _ _ Hquery
             (found_user_resolved _ _ Hfound Hprint)).
  unfold assignment_step. rewrite (bind_Return _ _ _ _ _ Hpost).
  rewrite Hstatus. cbn [Z.eqb Pos.eqb].
  rewrite bind_bind, bind_json, Hbody.
  rewrite bind_bind, bind_lift. cbn [Js.some].
  rewrite some_elems_found.
  - reflexivity.
  - eapply Forall_impl; [exact Hbefore|].
    intros e He. now apply duplicateError_readable.
  - now apply duplicateError_duplicate.
Qed.

Lemma invoke_duplicate_is_success_witness :
  exists tr2,
    Script.invoke (scripted [one_user; already_assigned])
                  sample_params bearer_context []
    = (Return (success sample_params "https://test.my.salesforce.com"
                       (VStr "005000000000001") VNull), tr2).
Proof.
  eexists.
  eapply (invoke_duplicate_is_success _ _ _ _ _ _ _ _ _ _ [] duplicate_error []).
  - sample_run.
  - sample_run.
  - eexists. reflexivity.
  - sample_run.
  - reflexivity.
  - reflexivity.
  - constructor.
  - left. reflexivity.
Defined.

(** The first part of C4 fails as stated: when the answer to the user
    query has a string for [records], the checks of [invoke] pass
    (the string is truthy and its length is not 0), the [Id] of its
    first character is [undefined], and the assignment POST is sent,
    though there is no list of records. *)
Lemma assignment_after_string_records :
  ~ post_only_after_record_list.
Proof.
  intros H.
  assert (Hrun : exists o tr req,
             Script.invoke (scripted [string_records; created]) sample_params
                           bearer_context [] = (o, tr)
             /\ In req tr /\ assignment_post req).
  { do 3 eexists. split; [by_run|]. split.
    - right. left. reflexivity.
    - exists offline, VUndefined, (Some "0PS000000000001"),
             "https://test.my.salesforce.com", "Bearer test-access-token",
             [], (Throw (TypeError "fetch failed")).
      by_run. }
  destruct Hrun as (o & tr & req & Hrun & Hin & Hpost).
  destruct (H _ _ _ _ _ _ Hrun Hin Hpost)
    as (baseUrl & authHeader & userResponse & tr1
        & (tr0 & Hbase & Hauth & Hfind)
        & (_ & userResult & record & others & Hjson & Hrecords)).
  vm_compute in Hbase. injection Hbase as <-.
  vm_compute in Hauth. injection Hauth as <- <-.
  vm_compute in Hfind. injection Hfind as <- _.
  vm_compute in Hjson. injection Hjson as <-.
  vm_compute in Hrecords. discriminate Hrecords.
Qed.

(** C4 (amended). In every run of [invoke] the permission-set-assignment
    POST is the last request and is issued only after the user query
    has returned an ok response that passes the checks of [invoke]: its
    JSON body reads a [records] value that is truthy and whose [length]
    is not 0 (a list of records is then not empty, but a value that is
    no list can pass too).  When the answer fails those checks (it is
    not ok, it has no JSON body or the body is [null], or [records] is
    missing, falsy or empty) [invoke] throws right after the query and
    no assignment POST is issued. *)
Theorem assignment_only_after_user_found
    (w : World) (params : Params.t) (context : Context.t)
    (o : outcome InvokeResult.t) (tr : list Request.t) :
  Script.invoke w params context [] = (o, tr) ->
  (forall req,
     In req tr -> assignment_post req ->
     exists baseUrl authHeader userResponse tr1,
       query_answered w params context baseUrl authHeader userResponse tr1
       /\ records_pass_check userResponse
       /\ tr = tr1 ++ [req]) /\
  (forall baseUrl authHeader userResponse tr1,
     query_answered w params context baseUrl authHeader userResponse tr1 ->
     fails_records_check userResponse ->
     (exists e, o = Throw e)
     /\ tr = tr1
     /\ forall req, In req tr -> ~ assignment_post req).
Proof.
  intros Hrun. split.
  - intros req Hin Hpost.
    destruct (invoke_cases _ _ _ _ _ Hrun)
      as [(e & _ & Hnone)
         | (baseUrl & authHeader & userResponse & tr1 & userId
            & Hquery & Hresolved & Hstep)].
    + rewrite Forall_forall in Hnone.
      exfalso. apply (Hnone req); [now apply list_elem_of_In | exact Hpost].
    + exists baseUrl, authHeader, userResponse, tr1.
      split; [exact Hquery|].
      split; [eapply resolved_passes_check, Hresolved|].
      apply assignment_step_trace in Hstep as (req' & -> & _).
      apply in_app_or in Hin as [Hin | [<- | []]]; [|reflexivity].
      pose proof (query_answered_trace _ _ _ _ _ _ _ Hquery) as Htr1.
      rewrite Forall_forall in Htr1.
      exfalso. apply (Htr1 req); [now apply list_elem_of_In | exact Hpost].
  - intros baseUrl authHeader userResponse tr1 Hquery Hfails.
    pose proof (query_answered_trace _ _ _ _ _ _ _ Hquery) as Htr1.
    assert (Hthrown : exists e, Script.invoke w params context [] = (Throw e, tr1)).
    { destruct Hquery as (tr0 & Hbase & Hauth & Hfind).
      unfold Script.invoke.
      rewrite bind_lift, Hbase.
      rewrite (bind_Return _ _ _ _ _ Hauth), (bind_Return _ _ _ _ _ Hfind).
      destruct (Response.ok userResponse) eqn:Hok; cbn [negb]; [|eauto].
      rewrite bind_json.
      destruct Hfails as [Hno | [Hnone | (userResult & Hjson & Hcase)]].
      - congruence.
      - rewrite Hnone. eauto.
      - rewrite Hjson, bind_lift.
        destruct Hcase as [(e & He) | (records & Hrecords & Hcase)].
        + rewrite He. eauto.
        + rewrite Hrecords. destruct Hcase as [Hfalsy | Hlen].
          * rewrite Hfalsy. cbn [negb]. rewrite bind_ret. eauto.
          * destruct (Js.truthy records); cbn [negb].
            -- rewrite bind_bind, bind_lift, Hlen, bind_ret. eauto.
            -- rewrite bind_ret. eauto. }
    destruct Hthrown as (e & He). rewrite He in Hrun. injection Hrun as <- <-.
    split; [eauto|]. split; [reflexivity|].
    intros req Hin. rewrite Forall_forall in Htr1.
    apply Htr1. now apply list_elem_of_In.
Qed.

Lemma assignment_only_after_user_found_witness :
  exists e tr,
    Script.invoke (scripted [no_user]) sample_params bearer_context []
    = (Throw e, tr)
    /\ forall req, In req tr -> ~ assignment_post req.
Proof.
  edestruct (assignment_only_after_user_found
               (scripted [no_user]) sample_params bearer_context)
    as [_ Hnone]; [by_run|].
  edestruct Hnone as (_ & _ & Hnot).
  - sample_run.
  - right. right. exists (VObj [("records", VArr [])]).
    split; [reflexivity|]. right. exists (VArr []).
    split; [reflexivity | right; reflexivity].
  - do 2 eexists. split; [by_run | exact Hnot].
Defined.

(** C5 fails as stated: an ok answer whose body is the JSON value
    [null] has no [records] field, and [invoke] throws a [TypeError]
    on reading [records] of [null], not 'User not found'. *)
Lemma null_body_is_not_user_not_found :
  ~ not_found_without_records.
Proof.
  intros H.
  assert (Hrun : exists tr1,
             Script.invoke (scripted [null_body]) sample_params
                           bearer_context []
             = (Throw (Error ("User not found: " +:+ "test.user@example.com")),
                tr1)).
  { eexists.
    eapply (H _ _ _ _ _ null_body _ "test.user@example.com" VNull).
    - sample_run.
    - reflexivity.
    - reflexivity.
    - reflexivity.
    - left. reflexivity. }
  destruct Hrun as (tr1 & Hrun). vm_compute in Hrun. discriminate Hrun.
Qed.

(** C5 (amended). When the user query response is ok and its body is a
    JSON value other than [null] that has no [records] field, or whose
    [records] is the empty list, [invoke] throws an error whose message
    is 'User not found: ' followed by the user name of the
    parameters. *)
Theorem invoke_user_not_found
    (w : World) (params : Params.t) (context : Context.t)
    (baseUrl authHeader : string) (userResponse : Response.t)
    (tr1 : list Request.t) (username : string) (userResult : value) :
  query_answered w params context baseUrl authHeader userResponse tr1 ->
  Params.username params = Some username ->
  Response.ok userResponse = true ->
  Response.json userResponse = Some userResult ->
  (Js.nullish userResult = false
   /\ has_field userResult "records" = false)
  \/ Js.get userResult "records" = Return (VArr []) ->
  Script.invoke w params context []
  = (Throw (Error ("User not found: " +:+ username)), tr1).
Proof.
  intros Hquery Hname Hok Hjson Hrecords.
  rewrite (invoke_no_records _ _ _ _ _ _ _ _ Hquery Hok Hjson).
  - now rewrite Hname.
  - destruct Hrecords as [(Hnull & Hfield) | Hempty]; [left | now right].
    now apply get_without_field.
Qed.

Lemma invoke_user_not_found_witness :
  exists tr1,
    Script.invoke (scripted [no_user]) sample_params bearer_context []
    = (Throw (Error "User not found: test.user@example.com"), tr1).
Proof.
  eexists.
  eapply (invoke_user_not_found _ _ _ _ _ no_user _ "test.user@example.com").
  - sample_run.
  - reflexivity.
  - reflexivity.
  - reflexivity.
  - right. reflexivity.
Defined.

(** Both parts fail: a 400 answer with a JSON object for a body makes
    the duplicate check throw a [TypeError], and a 201 answer without a
    JSON body makes [json()] reject. *)
Lemma assignment_outcome_counterexample :
  ~ other_bad_request_fails /\ ~ created_gives_id.
Proof.
  split; intros H.
  - edestruct (H (scripted [one_user; bad_request_object])
                 sample_params bearer_context) as (m & Hm & _).
    + sample_run.
    + sample_run.
    + sample_run.
    + reflexivity.
    + intros (body & Hbody & Hsome). vm_compute in Hbody.
      injection Hbody as <-. discriminate Hsome.
    + vm_compute in Hm. discriminate Hm.
  - edestruct (H (scripted [one_user; created_without_body])
                 sample_params bearer_context) as (r & body & Hr & _).
    + sample_run.
    + sample_run.
    + sample_run.
    + reflexivity.
    + vm_compute in Hr. discriminate Hr.
Qed.

Lemma failed_to_create_prefix (detail : string) :
  JsString.startsWith
    ("Failed to create permission set assignment: " +:+ detail)
    "Failed to create permission set assignment" = true.
Proof. reflexivity. Qed.

(** C6 (amended). When the user query succeeds with at least one
    record whose [Id] can be converted to a string: a 201 answer whose
    JSON body reads an [id] that can be converted to a string gives
    status 'success' with that [id] as assignment id; a 400 answer
    whose body is a JSON array of entries the duplicate check can read,
    none of which marks a duplicate, and an answer with a status other
    than 201 and 400, make [invoke] throw an error whose message starts
    with 'Failed to create permission set assignment'.  (A value cannot
    be converted to a string when it is an object with a member named
    [toString]; the log lines of the two ids then throw a
    [TypeError].) *)
Theorem invoke_assignment_outcome
    (w : World) (params : Params.t) (context : Context.t)
    (baseUrl authHeader : string) (userResponse : Response.t)
    (tr1 : list Request.t) (userId : value)
    (assignmentResponse : Response.t) (tr2 : list Request.t) :
  query_answered w params context baseUrl authHeader userResponse tr1 ->
  found_user userResponse userId ->
  printable userId ->
  assignment_answered w params baseUrl authHeader userId tr1
                      assignmentResponse tr2 ->
  let run := Script.invoke w params context [] in
  (forall body id,
     Response.status assignmentResponse = 201 ->
     Response.json assignmentResponse = Some body ->
     Js.get body "id" = Return id ->
     printable id ->
     run = (Return (success params baseUrl userId id), tr2)) /\
  (forall entries,
     Response.status assignmentResponse = 400 ->
     Response.json assignmentResponse = Some (VArr entries) ->
     Forall readable_entry entries ->
     Forall (fun entry => ~ duplicate_entry entry) entries ->
     failed_to_create run tr2) /\
  (Response.status assignmentResponse <> 201 ->
   Response.status assignmentResponse <> 400 ->
   failed_to_create run tr2).
Proof.
  intros Hquery Hfound Hprint Hpost run. subst run.
  rewrite (invoke_resolved _ _ _ _ _ _ _ _ Hquery
             (found_user_resolved _ _ Hfound Hprint)).
  unfold assignment_step. rewrite (bind_Return _ _ _ _ _ Hpost).
  repeat apply conj.
  - intros body id Hstatus Hbody Hget (text & Htext).
    rewrite Hstatus. cbn [Z.eqb Pos.eqb].
    rewrite bind_bind, bind_json, Hbody. rewrite bind_bind, bind_lift, Hget.
    cbv beta. rewrite bind_bind, bind_lift, Htext. reflexivity.
  - intros entries Hstatus Hbody Hread Hplain.
    rewrite Hstatus. cbn [Z.eqb Pos.eqb].
    rewrite bind_bind, bind_json, Hbody.
    rewrite bind_bind, bind_lift. cbn [Js.some].
    rewrite some_elems_none.
    + cbv iota. rewrite bind_bind, bind_lift. cbn [Js.get0].
      destruct (first_message entries Hread) as (m & text & Hm & Htext).
      rewrite Hm. rewrite bind_bind, bind_ret, bind_bind, bind_lift, Htext.
      rewrite bind_throw.
      eexists. split; [reflexivity | apply failed_to_create_prefix].
    + clear Hbody. induction Hread as [|e entries He _ IH];
        constructor.
      * apply duplicateError_plain; [exact He|].
        now inversion Hplain.
      * apply IH. now inversion Hplain.
  - intros H201 H400.
    apply Z.eqb_neq in H201, H400. rewrite H201, H400.
    rewrite bind_throw.
    eexists. split; [reflexivity | apply failed_to_create_prefix].
Qed.

Lemma invoke_assignment_outcome_witness :
  exists tr2,
    Script.invoke (scripted [one_user; created]) sample_params bearer_context []
    = (Return (success sample_params "https://test.my.salesforce.com"
                       (VStr "005000000000001") (VStr "PSA000000000001")), tr2).
Proof.
  edestruct (invoke_assignment_outcome
               (scripted [one_user; created]) sample_params bearer_context)
    as (Hcreated & _).
  - sample_run.
  - sample_run.
  - eexists. reflexivity.
  - sample_run.
  - eexists. eapply Hcreated; try reflexivity. eexists. reflexivity.
Defined.

(** C8. For every invocation of [invoke] that returns, the user name
    and permission set id of the result are those of the parameters, and
    its user id is the [Id] of the first record of the user-query
    response; replacing the records beyond index 0 in the answers of the
    world by anything else gives the same run and the same result. *)
Theorem invoke_result_from_first_record
    (w : World) (params : Params.t) (context : Context.t)
    (r : InvokeResult.t) (tr : list Request.t) :
  Script.invoke w params context [] = (Return r, tr) ->
  InvokeResult.username r = Params.username params /\
  InvokeResult.permissionSetId r = Params.permissionSetId params /\
  (exists baseUrl authHeader userResponse tr1 userResult records first,
     query_answered w params context baseUrl authHeader userResponse tr1 /\
     Response.json userResponse = Some userResult /\
     Js.get userResult "records" = Return records /\
     Js.get0 records = Return first /\
     Js.get first "Id" = Return (InvokeResult.userId r)) /\
  (forall tail,
     Script.invoke (with_records_tail tail w) params context []
     = (Return r, tr)).
Proof.
  intros Hrun.
  destruct (invoke_cases _ _ _ _ _ Hrun)
    as [(e & He & _)
       | (baseUrl & authHeader & userResponse & tr1 & userId
          & Hquery & Hresolved & Hstep)]; [discriminate He|].
  destruct (assignment_step_result _ _ _ _ _ _ _ _ Hstep) as (assignmentId & ->).
  repeat split.
  - destruct Hresolved as (_ & userResult & records & len & first
                           & Hjson & Hrecords & _ & _ & _ & Hfirst & Hid & _).
    exists baseUrl, authHeader, userResponse, tr1, userResult, records, first.
    repeat split; assumption.
  - intros tail.
    rewrite (invoke_resolved _ _ _ _ _ _ _ _
               (query_answered_retail tail _ _ _ _ _ _ _ Hquery)
               (resolved_user_retail tail _ _ Hresolved)).
    now apply assignment_step_retail.
Qed.

Lemma invoke_result_from_first_record_witness :
  exists tr,
    Script.invoke (with_records_tail [] (scripted [two_users; created]))
                  sample_params bearer_context []
    = (Return (success sample_params "https://test.my.salesforce.com"
                       (VStr "005000000000001") (VStr "PSA000000000001")), tr).
Proof.
  edestruct (invoke_result_from_first_record
               (scripted [two_users; created]) sample_params bearer_context)
    as (_ & _ & _ & Hsame); [by_run|].
  eexists. apply (Hsame []).
Defined.

(** * Further properties *)

(** ** The requests of a run, one by one *)


Lemma createPermissionSetAssignment_request (w : World) (userId : value)
    (permissionSetId : option string) (baseUrl authHeader : string) :
  Script.createPermissionSetAssignment w userId permissionSetId baseUrl authHeader
  = fetch w (assignment_request userId permissionSetId baseUrl authHeader).
Proof. reflexivity. Qed.

(** Case analysis on the tests of step 2 after the POST. *)
Ltac ladder_cases :=
  unfold bind, json, lift, ret, throw; cbv beta;
  repeat (match goal with
          | |- context [match Response.json ?r with _ => _ end] =>
              destruct (Response.json r)
          | |- context [match Js.to_string ?a with _ => _ end] =>
              destruct (Js.to_string a)
          | |- context [match Js.get ?a ?k with _ => _ end] =>
              destruct (Js.get a k)
          | |- context [match Js.get0 ?a with _ => _ end] =>
              destruct (Js.get0 a)
          | |- context [match Js.some ?a ?f with _ => _ end] =>
              destruct (Js.some a f)
          | |- context [if ?b then _ else _] => destruct b
          end; cbv beta iota).

Lemma assignment_step_sent (w : World) (params : Params.t)
    (baseUrl authHeader : string) (userId : value) tr1 o tr :
  assignment_step w params baseUrl authHeader userId tr1 = (o, tr) ->
  tr = tr1 ++ [assignment_request userId (Params.permissionSetId params)
                                  baseUrl authHeader].
Proof.
  unfold assignment_step. rewrite createPermissionSetAssignment_request.
  apply bind_fetch_trace. intros r t o' t'.
  ladder_cases; now intros [= _ <-].
Qed.



(** ** Configuration errors *)

(** X1. [invoke] checks its configuration before it sends anything: with
    neither [params.address] nor [ADDRESS] it throws the 'No URL
    specified' error, whatever the secrets are; with an address and no
    authentication method it throws the 'No authentication configured'
    error; in both cases no request has been sent. *)
Theorem invoke_configuration_error_sends_nothing
    (w : World) (params : Params.t) (context : Context.t) :
  let env : gmap string string := default ∅ (Context.environment context) in
  let secrets : gmap string string := default ∅ (Context.secrets context) in
  (absent (Params.address params) -> absent (env !! "ADDRESS") ->
   exists m, Script.invoke w params context [] = (Throw (Error m), [])
             /\ JsString.includes m "No URL specified" = true) /\
  (forall a,
     present (Js.or (Params.address params) (env !! "ADDRESS")) a ->
     absent (secrets !! "BEARER_AUTH_TOKEN") ->
     absent (secrets !! "BASIC_PASSWORD") \/ absent (secrets !! "BASIC_USERNAME") ->
     absent (secrets !! "OAUTH2_AUTHORIZATION_CODE_ACCESS_TOKEN") ->
     absent (secrets !! "OAUTH2_CLIENT_CREDENTIALS_CLIENT_SECRET") ->
     exists m, Script.invoke w params context [] = (Throw (Error m), [])
               /\ JsString.includes m "No authentication configured" = true).
Proof.
  intros env secrets. split.
  - intros Hp He. unfold Script.invoke, Utils.getBaseURL.
    rewrite bind_lift, (absent_or_l _ _ Hp). fold env.
    rewrite (absent_falsy _ He). eexists. split; reflexivity.
  - intros a Ha Hb Hbasic Hc Hs.
    destruct (getBaseURL_chosen params context a Ha) as (r & Hr & _).
    destruct (auth_none w context [] Hb Hbasic Hc Hs) as (m & Hm & Hinc).
    exists m. split; [|exact Hinc].
    unfold Script.invoke. rewrite bind_lift, Hr.
    now rewrite (bind_Throw _ _ _ _ _ Hm).
Qed.

Lemma invoke_configuration_error_sends_nothing_witness :
  exists m, Script.invoke (scripted [one_user; created]) sample_params
                          empty_context [] = (Throw (Error m), [])
            /\ JsString.includes m "No URL specified" = true.
Proof.
  apply (proj1 (invoke_configuration_error_sends_nothing
                  (scripted [one_user; created]) sample_params empty_context));
    left; reflexivity.
Defined.

(** ** The user query *)

(** X2. When the user query is answered with a status outside 200-299,
    [invoke] throws 'Failed to query user NAME: STATUS TEXT' with the
    user name of the parameters and the status and status text of the
    answer; nothing is sent after the query. *)
Theorem invoke_query_failure_message
    (w : World) (params : Params.t) (context : Context.t)
    (baseUrl authHeader : string) (userResponse : Response.t)
    (tr1 : list Request.t) (username : string) :
  query_answered w params context baseUrl authHeader userResponse tr1 ->
  Params.username params = Some username ->
  Response.ok userResponse = false ->
  Script.invoke w params context []
  = (Throw (Error ("Failed to query user " +:+ username +:+ ": "
                   +:+ JsString.of_Z (Response.status userResponse) +:+ " "
                   +:+ Response.statusText userResponse)),
     tr1).
Proof.
  intros (tr0 & Hbase & Hauth & Hfind) Hname Hok.
  unfold Script.invoke.
  rewrite bind_lift, Hbase.
  rewrite (bind_Return _ _ _ _ _ Hauth), (bind_Return _ _ _ _ _ Hfind).
  rewrite Hok, Hname. reflexivity.
Qed.

Lemma invoke_query_failure_message_witness :
  exists tr1,
    Script.invoke (scripted [unauthorized]) sample_params bearer_context []
    = (Throw (Error "Failed to query user test.user@example.com: 401 Unauthorized"),
       tr1).
Proof.
  eexists.
  eapply (invoke_query_failure_message _ _ _ _ _ unauthorized _
                                       "test.user@example.com").
  - sample_run.
  - reflexivity.
  - reflexivity.
Defined.

(** X3. When the user query is answered ok with a JSON body whose
    [records] can be read, [invoke] throws 'User not found: NAME' with
    nothing sent after the query exactly when [records] is falsy
    (missing, [null], [false], [0] or the empty string) or its [length]
    is 0. *)
Theorem invoke_user_not_found_iff
    (w : World) (params : Params.t) (context : Context.t)
    (baseUrl authHeader : string) (userResponse : Response.t)
    (tr1 : list Request.t) (userResult records : value) :
  query_answered w params context baseUrl authHeader userResponse tr1 ->
  Response.ok userResponse = true ->
  Response.json userResponse = Some userResult ->
  Js.get userResult "records" = Return records ->
  Script.invoke w params context []
  = (Throw (Error ("User not found: " +:+ Utils.str (Params.username params))),
     tr1)
  <-> (Js.truthy records = false \/ Js.get records "length" = Return (VNum 0)).
Proof.
  intros Hquery Hok Hjson Hrecords.
  pose proof Hquery as (tr0 & Hbase & Hauth & Hfind).
  assert (Hstep : Script.invoke w params context []
                  = (let! userId :=
                       (let! _ :=
                          if negb (Js.truthy records) then throw (Error ("User not found: " +:+ Utils.str (Params.username params)))
                          else
                            let! len := lift (Js.get records "length") in
                            if Js.is_num len 0 then throw (Error ("User not found: " +:+ Utils.str (Params.username params)))
                            else ret tt in
                        let! first := lift (Js.get0 records) in
                        let! userId := lift (Js.get first "Id") in
                        let! logged := lift (Js.to_string userId) in
                        ret userId) in
                     assignment_step w params baseUrl authHeader userId) tr1).
  { unfold Script.invoke.
    rewrite bind_lift, Hbase.
    rewrite (bind_Return _ _ _ _ _ Hauth), (bind_Return _ _ _ _ _ Hfind).
    rewrite Hok. cbn [negb].
    rewrite bind_json, Hjson, bind_lift, Hrecords.
    unfold assignment_step, bind, lift, ret, throw.
    destruct (Js.truthy records); cbn [negb]; [|reflexivity].
    destruct (Js.get records "length") as [len|e]; [|reflexivity].
    destruct (Js.is_num len 0); [reflexivity|].
    destruct (Js.get0 records) as [first|e]; [|reflexivity].
    destruct (Js.get first "Id") as [userId|e]; [|reflexivity].
    destruct (Js.to_string userId); reflexivity. }
  rewrite Hstep. clear Hstep. split.
  - destruct (Js.truthy records) eqn:Htruthy; [|now left].
    cbn [negb]. intros H. right. revert H.
    unfold bind, lift, ret, throw. cbv beta iota.
    destruct (Js.get records "length") as [len|e] eqn:Hlen; cbv beta iota.
    2: { destruct records; discriminate. }
    destruct (Js.is_num len 0) eqn:Hzero; cbv beta iota.
    { intros _. destruct len; try discriminate Hzero.
      cbn in Hzero. apply Z.eqb_eq in Hzero. now subst. }
    destruct (Js.get0 records) as [first|e] eqn:Hfirst; cbv beta iota.
    2: { destruct records; discriminate. }
    destruct (Js.get first "Id") as [userId|e] eqn:Hid; cbv beta iota.
    2: { destruct first; try discriminate Hid; injection Hid as <-;
         discriminate. }
    unfold Js.to_string. destruct (Js.can_print userId); cbv beta iota.
    2: { discriminate. }
    intros H. exfalso. apply assignment_step_trace in H as (req & Htr & _).
    apply (f_equal (@length _)) in Htr. rewrite length_app in Htr.
    cbn in Htr. lia.
  - intros [Hfalsy | Hlen].
    + rewrite Hfalsy. reflexivity.
    + destruct (Js.truthy records); [|reflexivity]. cbn [negb].
      unfold bind at 1 2 3, lift. rewrite Hlen. reflexivity.
Qed.

Lemma invoke_user_not_found_iff_witness :
  exists tr1,
    Script.invoke (scripted [null_records]) sample_params bearer_context []
    = (Throw (Error "User not found: test.user@example.com"), tr1).
Proof.
  edestruct (invoke_user_not_found_iff
               (scripted [null_records]) sample_params bearer_context)
    with (userResponse := null_records) (records := VNull) as [_ H];
    [sample_run | reflexivity | reflexivity | reflexivity |].
  eexists. apply H. left. reflexivity.
Defined.

(** X4. A record without an [Id] does not stop the run: when the first
    record of the answer has no [Id], [invoke] still sends the
    assignment POST, and the body of that request has no [AssigneeId]
    member, only the permission set. *)
Theorem invoke_record_without_id
    (w : World) (params : Params.t) (context : Context.t)
    (baseUrl authHeader : string) (userResponse : Response.t)
    (tr1 : list Request.t) (permissionSetId : string) :
  query_answered w params context baseUrl authHeader userResponse tr1 ->
  resolved_user userResponse VUndefined ->
  Params.permissionSetId params = Some permissionSetId ->
  exists o req,
    Script.invoke w params context [] = (o, tr1 ++ [req])
    /\ Request.method req = "POST"
    /\ Request.url req
       = baseUrl +:+ "/services/data/v61.0/sobjects/PermissionSetAssignment"
    /\ Request.body req
       = Some ("{" +:+ Encode.json_quote "PermissionSetId" +:+ ":"
               +:+ Encode.json_quote permissionSetId +:+ "}").
Proof.
  intros Hquery Huser Hid.
  rewrite (invoke_resolved _ _ _ _ _ _ _ _ Hquery Huser).
  destruct (assignment_step w params baseUrl authHeader VUndefined tr1)
    as [o tr] eqn:Hstep.
  apply assignment_step_sent in Hstep as ->.
  exists o. eexists. split; [reflexivity|].
  rewrite Hid. repeat split.
Qed.

Lemma invoke_record_without_id_witness :
  exists o req,
    Script.invoke (scripted [user_without_id; created]) sample_params
                  bearer_context []
    = (o, [user_query_request (Some "test.user@example.com")
             "https://test.my.salesforce.com" "Bearer test-access-token"]
          ++ [req])
    /\ Request.body req
       = Some ("{" +:+ Encode.json_quote "PermissionSetId" +:+ ":"
               +:+ Encode.json_quote "0PS000000000001" +:+ "}").
Proof.
  edestruct (invoke_record_without_id
               (scripted [user_without_id; created]) sample_params
               bearer_context)
    with (userResponse := user_without_id)
    as (o & req & Hrun & _ & _ & Hbody).
  - sample_run.
  - split; [reflexivity|].
    exists (VObj [("records", VArr [VObj []])]), (VArr [VObj []]),
           (VNum 1), (VObj []).
    repeat (split; [reflexivity|]). now exists "undefined".
  - reflexivity.
  - exists o, req. split; [exact Hrun | exact Hbody].
Defined.

(** ** The assignment *)

(** X5. [invoke] returns a result only in two cases: the assignment POST
    was answered with status 201 and a JSON body, whose [id] is the
    [assignmentId] of the result, or with status 400 and a JSON array
    that the duplicate check accepts, and then [assignmentId] is
    [null].  In both cases the result is the 'success' record of the
    user found by the query. *)
Theorem invoke_returns_only_created_or_duplicate
    (w : World) (params : Params.t) (context : Context.t)
    (r : InvokeResult.t) (tr : list Request.t) :
  Script.invoke w params context [] = (Return r, tr) ->
  exists baseUrl authHeader userResponse tr1 userId assignmentResponse,
    query_answered w params context baseUrl authHeader userResponse tr1
    /\ resolved_user userResponse userId
    /\ assignment_answered w params baseUrl authHeader userId tr1
                           assignmentResponse tr
    /\ r = success params baseUrl userId (InvokeResult.assignmentId r)
    /\ exists body,
         Response.json assignmentResponse = Some body
         /\ ((Response.status assignmentResponse = 201
              /\ Js.get body "id" = Return (InvokeResult.assignmentId r))
             \/ (Response.status assignmentResponse = 400
                 /\ Js.some body Script.duplicateError = Return true
                 /\ InvokeResult.assignmentId r = VNull)).
Proof.
  intros H. apply invoke_cases in H as [(e & He & _) | H]; [discriminate He|].
  destruct H as (baseUrl & authHeader & userResponse & tr1 & userId
                 & Hquery & Huser & Hstep).
  exists baseUrl, authHeader, userResponse, tr1, userId.
  unfold assignment_step in Hstep.
  destruct (Script.createPermissionSetAssignment w userId
              (Params.permissionSetId params) baseUrl authHeader tr1)
    as [[assignmentResponse|e] tr2] eqn:Hpost.
  2: { rewrite (bind_Throw _ _ _ _ _ Hpost) in Hstep. discriminate Hstep. }
  rewrite (bind_Return _ _ _ _ _ Hpost) in Hstep.
  exists assignmentResponse.
  revert Hstep. unfold bind, json, lift, ret, throw. cbv beta.
  destruct (Response.status assignmentResponse =? 201) eqn:Hcreated.
  - apply Z.eqb_eq in Hcreated.
    destruct (Response.json assignmentResponse) as [body|] eqn:Hjson;
      [|discriminate].
    destruct (Js.get body "id") as [assignmentId|e] eqn:Hid; [|discriminate].
    destruct (Js.to_string assignmentId); [|discriminate].
    intros [= <- <-].
    split; [exact Hquery|]. split; [exact Huser|]. split; [exact Hpost|].
    split; [reflexivity|].
    exists body. split; [reflexivity|]. left. now split.
  - destruct (Response.status assignmentResponse =? 400) eqn:Hbad;
      [|discriminate].
    apply Z.eqb_eq in Hbad.
    destruct (Response.json assignmentResponse) as [body|] eqn:Hjson;
      [|discriminate].
    destruct (Js.some body Script.duplicateError) as [[|]|e] eqn:Hsome;
      cbv beta iota.
    + intros [= <- <-].
      split; [exact Hquery|]. split; [exact Huser|]. split; [exact Hpost|].
      split; [reflexivity|].
      exists body. split; [reflexivity|]. right. now repeat split.
    + destruct (Js.get0 body) as [first|e]; [|discriminate].
      destruct (Js.nullish first); [cbn; discriminate|].
      destruct (Js.get first "message") as [m|e]; [|discriminate].
      destruct (Js.to_string _); discriminate.
    + discriminate.
Qed.

Lemma invoke_returns_only_created_or_duplicate_witness :
  exists r tr,
    Script.invoke (scripted [one_user; already_assigned]) sample_params
                  bearer_context [] = (Return r, tr)
    /\ exists assignmentResponse body,
         Response.json assignmentResponse = Some body
         /\ ((Response.status assignmentResponse = 201
              /\ Js.get body "id" = Return (InvokeResult.assignmentId r))
             \/ (Response.status assignmentResponse = 400
                 /\ Js.some body Script.duplicateError = Return true
                 /\ InvokeResult.assignmentId r = VNull)).
Proof.
  assert (Hrun : exists r tr,
             Script.invoke (scripted [one_user; already_assigned])
                           sample_params bearer_context [] = (Return r, tr))
    by (do 2 eexists; by_run).
  destruct Hrun as (r & tr & Hrun).
  exists r, tr. split; [exact Hrun|].
  destruct (invoke_returns_only_created_or_duplicate _ _ _ _ _ Hrun)
    as (baseUrl & authHeader & userResponse & tr1 & userId
        & assignmentResponse & _ & _ & _ & _ & body & Hjson & Hcases).
  exists assignmentResponse, body. split; assumption.
Defined.

(** ** The requests of a whole run *)

Lemma append_associative (a b c : string) :
  (a +:+ b) +:+ c = a +:+ (b +:+ c).
Proof.
  induction a as [|x a IH]; [reflexivity|].
  change (String x ((a +:+ b) +:+ c) = String x (a +:+ (b +:+ c))).
  now rewrite IH.
Qed.





(** ** The address of the user query *)

Lemma all_units_append (p : ascii -> bool) (a b : string) :
  all_units p (a +:+ b) = all_units p a && all_units p b.
Proof.
  induction a as [|c a IH]; [reflexivity|].
  change (all_units p (String c (a +:+ b)) = p c && all_units p a && all_units p b).
  cbn [all_units]. now rewrite IH, andb_assoc.
Qed.

Lemma encodeURIComponent_cons (c : ascii) (s : string) :
  Encode.encodeURIComponent (String c s)
  = (if Encode.alphanumeric c || Encode.member c "-_.!~*'()"
     then String c EmptyString else Encode.percent_unit c)
    +:+ Encode.encodeURIComponent s.
Proof. reflexivity. Qed.

Lemma encoded_unit_safe (c : ascii) :
  all_units uri_safe
    (if Encode.alphanumeric c || Encode.member c "-_.!~*'()"
     then String c EmptyString else Encode.percent_unit c) = true.
Proof.
  destruct c as [[] [] [] [] [] [] [] []]; vm_compute; reflexivity.
Qed.

Lemma encodeURIComponent_safe (s : string) :
  all_units uri_safe (Encode.encodeURIComponent s) = true.
Proof.
  induction s as [|c s IH]; [reflexivity|].
  now rewrite encodeURIComponent_cons, all_units_append, encoded_unit_safe, IH.
Qed.

Lemma encodeURIComponent_append (a b : string) :
  Encode.encodeURIComponent (a +:+ b)
  = Encode.encodeURIComponent a +:+ Encode.encodeURIComponent b.
Proof.
  induction a as [|c a IH]; [reflexivity|].
  change (String c a +:+ b) with (String c (a +:+ b)).
  now rewrite !encodeURIComponent_cons, IH, append_associative.
Qed.

(** X8. [findUserByUsername] sends one GET request, addressed to the
    base URL followed by the fixed SOQL text with the user name,
    encoded by [encodeURIComponent], between apostrophes.  The encoded
    name holds only letters, digits, the marks [-_.!~*'()] and percent
    escapes; an apostrophe of the user name is not escaped and reaches
    the SOQL string literal as it is. *)
Theorem user_query_address
    (w : World) (username : option string) (baseUrl authHeader : string)
    (tr tr' : list Request.t) (o : outcome Response.t) :
  Script.findUserByUsername w username baseUrl authHeader tr = (o, tr') ->
  exists req,
    tr' = tr ++ [req]
    /\ Request.method req = "GET"
    /\ Request.url req
       = baseUrl
         +:+ "/services/data/v61.0/query?q=SELECT+Id+FROM+User+WHERE+Username+LIKE+'"
         +:+ Encode.encodeURIComponent (Utils.str username)
         +:+ "'+ORDER+BY+Id+ASC"
    /\ all_units uri_safe (Encode.encodeURIComponent (Utils.str username))
       = true
    /\ forall a b, Utils.str username = a +:+ "'" +:+ b ->
         Request.url req
         = baseUrl
           +:+ "/services/data/v61.0/query?q=SELECT+Id+FROM+User+WHERE+Username+LIKE+'"
           +:+ Encode.encodeURIComponent a +:+ "'"
           +:+ Encode.encodeURIComponent b
           +:+ "'+ORDER+BY+Id+ASC".
Proof.
  intros H. apply fetch_trace in H.
  eexists. split; [exact H|]. split; [reflexivity|]. split; [reflexivity|].
  split; [apply encodeURIComponent_safe|].
  intros a b Hname. cbn [Request.url]. rewrite Hname.
  rewrite !encodeURIComponent_append, !append_associative. reflexivity.
Qed.

Lemma user_query_address_witness :
  exists o req,
    Script.findUserByUsername offline (Some "o'neil@example.com")
      "https://test.my.salesforce.com" "Bearer t" [] = (o, [] ++ [req])
    /\ Request.url req
       = "https://test.my.salesforce.com/services/data/v61.0/query?q=SELECT+Id+FROM+User+WHERE+Username+LIKE+'o'neil%40example.com'+ORDER+BY+Id+ASC".
Proof.
  assert (Hrun : exists o tr,
             Script.findUserByUsername offline (Some "o'neil@example.com")
               "https://test.my.salesforce.com" "Bearer t" [] = (o, tr))
    by (do 2 eexists; by_run).
  destruct Hrun as (o & tr & Hrun).
  destruct (user_query_address _ _ _ _ _ _ _ Hrun)
    as (req & -> & _ & Hurl & _ & _).
  exists o, req. split; [exact Hrun|].
  rewrite Hurl. reflexivity.
Defined.

(** ** The token request of the client-credentials scheme *)

(** X9. [getClientCredentialsToken] returns a token only after one POST
    to the token URL that was answered ok (status 200-299) with a JSON
    body, and the token is the [access_token] of that body, which is
    truthy; the configuration was complete. *)
Theorem token_returned_from_ok_answer
    (w : World) (config : Utils.Config) (tr tr' : list Request.t)
    (token : value) :
  Utils.getClientCredentialsToken w config tr = (Return token, tr') ->
  Js.truthy token = true /\
  (Js.falsy (Utils.tokenUrl config) = false
   /\ Js.falsy (Utils.clientId config) = false
   /\ Js.falsy (Utils.clientSecret config) = false) /\
  exists req response data,
    tr' = tr ++ [req]
    /\ respond w (length tr) req = Responded response
    /\ Request.url req = Utils.str (Utils.tokenUrl config)
    /\ Request.method req = "POST"
    /\ Response.ok response = true
    /\ Response.json response = Some data
    /\ Js.get data "access_token" = Return token.
Proof.
  unfold Utils.getClientCredentialsToken.
  destruct (Js.falsy (Utils.tokenUrl config)) eqn:Hurl; [discriminate|].
  destruct (Js.falsy (Utils.clientId config)) eqn:Hid; [discriminate|].
  destruct (Js.falsy (Utils.clientSecret config)) eqn:Hsecret; [discriminate|].
  cbn [orb].
  destruct (Js.is_str _ _); unfold bind, fetch, json, lift, ret, throw;
    cbv beta;
    match goal with
    | |- context [respond ?w0 ?n ?req] =>
        destruct (respond w0 n req) as [|response] eqn:Hrespond
    end; try discriminate;
    (destruct (Response.ok response) eqn:Hok; cbn [negb];
     [| destruct (Response.json response); discriminate]);
    (destruct (Response.json response) as [data|] eqn:Hjson; [|discriminate]);
    (destruct (Js.get data "access_token") as [access_token|e] eqn:Htoken;
     [|discriminate]);
    (destruct (Js.truthy access_token) eqn:Htruthy; cbn [negb];
     [|discriminate]);
    intros [= <- <-];
    (split; [exact Htruthy|]); (split; [auto|]);
    eexists; exists response, data;
    (split; [reflexivity|]); (split; [exact Hrespond|]);
    repeat split; assumption.
Qed.

Lemma token_returned_from_ok_answer_witness :
  exists token tr',
    Utils.getClientCredentialsToken
      (scripted [token_answer (VStr "abc")])
      {| Utils.tokenUrl := Some "https://login.example.com/token";
         Utils.clientId := Some "client";
         Utils.clientSecret := Some "secret";
         Utils.scope := None;
         Utils.audience := None;
         Utils.authStyle := None |} [] = (Return token, tr')
    /\ Js.truthy token = true.
Proof.
  assert (Hrun : exists token tr',
             Utils.getClientCredentialsToken
               (scripted [token_answer (VStr "abc")])
               {| Utils.tokenUrl := Some "https://login.example.com/token";
                  Utils.clientId := Some "client";
                  Utils.clientSecret := Some "secret";
                  Utils.scope := None;
                  Utils.audience := None;
                  Utils.authStyle := None |} [] = (Return token, tr'))
    by (do 2 eexists; by_run).
  destruct Hrun as (token & tr' & Hrun).
  exists token, tr'. split; [exact Hrun|].
  exact (proj1 (token_returned_from_ok_answer _ _ _ _ _ Hrun)).
Defined.

(** X10. With a complete configuration [getClientCredentialsToken]
    sends exactly one request, a form-encoded POST with
    [grant_type=client_credentials], and the client secret travels in
    one place only: with [authStyle] 'InParams' in the form, beside the
    client id, and the request has no [Authorization] header; with any
    other [authStyle] in a Basic [Authorization] header made of the
    client id and the secret, and the form holds neither. *)
Theorem token_request_secret_placement
    (w : World) (config : Utils.Config) (tr : list Request.t) :
  Js.falsy (Utils.tokenUrl config) = false ->
  Js.falsy (Utils.clientId config) = false ->
  Js.falsy (Utils.clientSecret config) = false ->
  exists o req fields,
    Utils.getClientCredentialsToken w config tr = (o, tr ++ [req])
    /\ Request.method req = "POST"
    /\ Request.body req = Some (Encode.URLSearchParams_toString fields)
    /\ In ("grant_type", "client_credentials") fields
    /\ In ("Content-Type", "application/x-www-form-urlencoded")
          (Request.headers req)
    /\ if Js.is_str (Js.of_option (Utils.authStyle config)) "InParams"
       then In ("client_id", Utils.str (Utils.clientId config)) fields
            /\ In ("client_secret", Utils.str (Utils.clientSecret config)) fields
            /\ ~ In "Authorization" (map fst (Request.headers req))
       else In ("Authorization",
                "Basic " +:+ Encode.btoa (Utils.str (Utils.clientId config)
                                          +:+ ":"
                                          +:+ Utils.str (Utils.clientSecret config)))
               (Request.headers req)
            /\ ~ In "client_id" (map fst fields)
            /\ ~ In "client_secret" (map fst fields).
Proof.
  intros Hurl Hid Hsecret.
  unfold Utils.getClientCredentialsToken.
  rewrite Hurl, Hid, Hsecret. cbn [orb].
  destruct (Js.is_str (Js.of_option (Utils.authStyle config)) "InParams").
  - match goal with
    | |- context [bind (fetch ?w0 ?req) ?k ?t] =>
        destruct (bind (fetch w0 req) k t) as [o tr'] eqn:Hrun;
        assert (tr' = t ++ [req]) as ->
          by (eapply bind_fetch_trace; [|exact Hrun];
              intros r t0 o' t'; silent_cases);
        exists o, req
    end.
    eexists. split; [reflexivity|]. split; [reflexivity|].
    split; [reflexivity|].
    destruct (Js.falsy (Utils.scope config)),
             (Js.falsy (Utils.audience config));
      cbn [app In map fst Request.headers];
      (split; [now left|]); (split; [now left|]);
      (split; [tauto|]); (split; [tauto|]);
      intros [H|[H|[]]]; discriminate H.
  - match goal with
    | |- context [bind (fetch ?w0 ?req) ?k ?t] =>
        destruct (bind (fetch w0 req) k t) as [o tr'] eqn:Hrun;
        assert (tr' = t ++ [req]) as ->
          by (eapply bind_fetch_trace; [|exact Hrun];
              intros r t0 o' t'; silent_cases);
        exists o, req
    end.
    eexists. split; [reflexivity|]. split; [reflexivity|].
    split; [reflexivity|].
    destruct (Js.falsy (Utils.scope config)),
             (Js.falsy (Utils.audience config));
      cbn [app In map fst Request.headers];
      (split; [now left|]); (split; [now left|]);
      (split; [tauto|]);
      split; intros H; decompose [or] H; try discriminate; assumption.
Qed.

Lemma token_request_secret_placement_witness :
  exists o req,
    Utils.getClientCredentialsToken offline
      {| Utils.tokenUrl := Some "https://login.example.com/token";
         Utils.clientId := Some "client";
         Utils.clientSecret := Some "secret";
         Utils.scope := Some "api";
         Utils.audience := None;
         Utils.authStyle := Some "InParams" |} [] = (o, [] ++ [req])
    /\ Request.body req
       = Some "grant_type=client_credentials&scope=api&client_id=client&client_secret=secret"
    /\ ~ In "Authorization" (map fst (Request.headers req)).
Proof.
  destruct (token_request_secret_placement offline
              {| Utils.tokenUrl := Some "https://login.example.com/token";
                 Utils.clientId := Some "client";
                 Utils.clientSecret := Some "secret";
                 Utils.scope := Some "api";
                 Utils.audience := None;
                 Utils.authStyle := Some "InParams" |} [])
    as (o & req & fields & Hrun & _ & Hbody & _ & _ & Hplace);
    [reflexivity | reflexivity | reflexivity |].
  exists o, req. split; [exact Hrun|].
  assert (Hreq : [req]
                 = snd (Utils.getClientCredentialsToken offline
                          {| Utils.tokenUrl := Some "https://login.example.com/token";
                             Utils.clientId := Some "client";
                             Utils.clientSecret := Some "secret";
                             Utils.scope := Some "api";
                             Utils.audience := None;
                             Utils.authStyle := Some "InParams" |} []))
    by (now rewrite Hrun).
  vm_compute in Hreq. injection Hreq as ->.
  split; [reflexivity|]. exact (proj2 (proj2 Hplace)).
Defined.

(** X11. When the token endpoint answers with a status outside 200-299
    and a JSON body, [getClientCredentialsToken] throws
    'OAuth2 token request failed: STATUS TEXT - BODY', where BODY is the
    body serialised again; it returns no token, and sends nothing
    more. *)
Theorem token_request_failure_message
    (w : World) (config : Utils.Config) (tr : list Request.t)
    (response : Response.t) (errorData : value) :
  Js.falsy (Utils.tokenUrl config) = false ->
  Js.falsy (Utils.clientId config) = false ->
  Js.falsy (Utils.clientSecret config) = false ->
  (forall req, respond w (length tr) req = Responded response) ->
  Response.ok response = false ->
  Response.json response = Some errorData ->
  exists req,
    Utils.getClientCredentialsToken w config tr
    = (Throw (Error ("OAuth2 token request failed: "
                     +:+ JsString.of_Z (Response.status response) +:+ " "
                     +:+ Response.statusText response +:+ " - "
                     +:+ Utils.str (Encode.stringify errorData))),
       tr ++ [req])
    /\ Request.url req = Utils.str (Utils.tokenUrl config).
Proof.
  intros Hurl Hid Hsecret Hrespond Hok Hjson.
  unfold Utils.getClientCredentialsToken.
  rewrite Hurl, Hid, Hsecret. cbn [orb].
  destruct (Js.is_str _ _); unfold bind, fetch; rewrite Hrespond, Hok, Hjson;
    eexists; split; reflexivity.
Qed.

Lemma token_request_failure_message_witness :
  exists req,
    Utils.getClientCredentialsToken
      (scripted [answer 401 "Unauthorized"
                   (Some (VObj [("error", VStr "invalid_client")]))])
      {| Utils.tokenUrl := Some "https://login.example.com/token";
         Utils.clientId := Some "client";
         Utils.clientSecret := Some "secret";
         Utils.scope := None;
         Utils.audience := None;
         Utils.authStyle := None |} []
    = (Throw (Error ("OAuth2 token request failed: 401 Unauthorized - {"
                     +:+ Encode.json_quote "error" +:+ ":"
                     +:+ Encode.json_quote "invalid_client" +:+ "}")),
       [] ++ [req]).
Proof.
  destruct (token_request_failure_message
              (scripted [answer 401 "Unauthorized"
                           (Some (VObj [("error", VStr "invalid_client")]))])
              {| Utils.tokenUrl := Some "https://login.example.com/token";
                 Utils.clientId := Some "client";
                 Utils.clientSecret := Some "secret";
                 Utils.scope := None;
                 Utils.audience := None;
                 Utils.authStyle := None |} []
              (answer 401 "Unauthorized"
                 (Some (VObj [("error", VStr "invalid_client")])))
              (VObj [("error", VStr "invalid_client")]))
    as (req & Hrun & _);
    [reflexivity | reflexivity | reflexivity | intros req; reflexivity
    | reflexivity | reflexivity |].
  exists req. exact Hrun.
Defined.

(** ** The authorization header, further *)

(** X12. In the client-credentials scheme [getAuthorizationHeader]
    sends one request, the one to the token URL, and puts 'Bearer ' in
    front of the string token the endpoint returned, without looking
    at it: unlike the bearer-token and authorization-code schemes it
    does not keep a token that already starts with 'Bearer ' as it is.
    A token that cannot be converted to a string (an object with a
    member named [toString]) makes it throw a [TypeError] after that
    request. *)
Theorem client_credentials_header
    (w : World) (context : Context.t) (tr : list Request.t)
    (response : Response.t) (data token : value) :
  let env : gmap string string := default ∅ (Context.environment context) in
  let secrets : gmap string string := default ∅ (Context.secrets context) in
  absent (secrets !! "BEARER_AUTH_TOKEN") ->
  absent (secrets !! "BASIC_PASSWORD") \/ absent (secrets !! "BASIC_USERNAME") ->
  absent (secrets !! "OAUTH2_AUTHORIZATION_CODE_ACCESS_TOKEN") ->
  Js.falsy (secrets !! "OAUTH2_CLIENT_CREDENTIALS_CLIENT_SECRET") = false ->
  Js.falsy (env !! "OAUTH2_CLIENT_CREDENTIALS_TOKEN_URL") = false ->
  Js.falsy (env !! "OAUTH2_CLIENT_CREDENTIALS_CLIENT_ID") = false ->
  (forall req, respond w (length tr) req = Responded response) ->
  Response.ok response = true ->
  Response.json response = Some data ->
  Js.get data "access_token" = Return token ->
  Js.truthy token = true ->
  exists req,
    Request.url req = Utils.str (env !! "OAUTH2_CLIENT_CREDENTIALS_TOKEN_URL")
    /\ (forall text, token = VStr text ->
          Utils.getAuthorizationHeader w context tr
          = (Return ("Bearer " +:+ text), tr ++ [req]))
    /\ (Js.can_print token = false ->
          exists m, Utils.getAuthorizationHeader w context tr
                    = (Throw (TypeError m), tr ++ [req])).
Proof.
  intros env secrets. subst env secrets.
  intros Hb Hbasic Hc Hsecret Hurl Hid Hrespond Hok Hjson Htoken Htruthy.
  unfold Utils.getAuthorizationHeader.
  rewrite (absent_falsy _ Hb), (basic_incomplete _ Hbasic), (absent_falsy _ Hc).
  rewrite Hsecret, Hurl, Hid. cbn [negb orb].
  unfold Utils.getClientCredentialsToken.
  cbn [Utils.tokenUrl Utils.clientId Utils.clientSecret Utils.scope
       Utils.audience Utils.authStyle].
  rewrite Hsecret, Hurl, Hid. cbn [orb].
  destruct (Js.is_str _ _); unfold bind, fetch, json, lift, ret;
    rewrite Hrespond, Hok; cbn [negb]; rewrite Hjson, Htoken, Htruthy;
    cbn [negb]; eexists; (split; [|split]).
  2, 5: intros text ->; reflexivity.
  2, 4: unfold Js.to_string; intros ->; eexists; reflexivity.
  all: reflexivity.
Qed.

Lemma client_credentials_header_witness :
  exists req,
    Utils.getAuthorizationHeader
      (scripted [token_answer (VStr "Bearer abc")])
      client_credentials_context []
    = (Return "Bearer Bearer abc", [] ++ [req]).
Proof.
  destruct (client_credentials_header
              (scripted [token_answer (VStr "Bearer abc")])
              client_credentials_context []
              (token_answer (VStr "Bearer abc"))
              (VObj [("access_token", VStr "Bearer abc")])
              (VStr "Bearer abc"))
    as (req & _ & Hrun & _);
    [left; reflexivity | left; left; reflexivity | left; reflexivity
    | reflexivity | reflexivity | reflexivity | intros req; reflexivity
    | reflexivity | reflexivity | reflexivity | reflexivity |].
  exists req. exact (Hrun "Bearer abc" eq_refl).
Defined.

(** X13. The bearer-token scheme is idempotent: a header it returned,
    configured again as the bearer token, comes back unchanged. *)
Theorem bearer_header_idempotent
    (w : World) (context context' : Context.t) (tr tr' tr2 : list Request.t)
    (token h : string) :
  present (default ∅ (Context.secrets context) !! "BEARER_AUTH_TOKEN") token ->
  Utils.getAuthorizationHeader w context tr = (Return h, tr') ->
  present (default ∅ (Context.secrets context') !! "BEARER_AUTH_TOKEN") h ->
  Utils.getAuthorizationHeader w context' tr2 = (Return h, tr2).
Proof.
  intros Htoken Hrun Hagain.
  destruct (auth_bearer_token w context tr token Htoken) as (h0 & Hrun0 & Hh).
  rewrite Hrun in Hrun0. injection Hrun0 as <- _.
  assert (Hprefix : JsString.startsWith h "Bearer " = true).
  { destruct Hh as [Hstarts | Hstarts]; [exact Hstarts | apply startsWith_append]. }
  unfold Utils.getAuthorizationHeader.
  rewrite (present_falsy _ _ Hagain), (present_str _ _ Hagain). cbn [negb].
  now rewrite Hprefix.
Qed.

Lemma bearer_header_idempotent_witness :
  Utils.getAuthorizationHeader offline
    {| Context.environment := None;
       Context.secrets := Some {[ "BEARER_AUTH_TOKEN" := "Bearer test-access-token" ]} |}
    []
  = (Return "Bearer test-access-token", []).
Proof.
  apply (bearer_header_idempotent offline bearer_context _ [] []
           [] "test-access-token" "Bearer test-access-token").
  - split; [reflexivity | discriminate].
  - reflexivity.
  - split; [reflexivity | discriminate].
Defined.

(** ** The earlier variant: [invoke] and [error] together *)

Lemma prefix_separator (c : ascii) (p a b : string) :
  Encode.member c p = false ->
  String.prefix p (a +:+ String c b) = String.prefix p a.
Proof.
  revert p. induction a as [|y a IH]; intros [|x p] Hc; try reflexivity.
  - cbn in Hc. apply orb_false_iff in Hc as [Hx _].
    apply Ascii.eqb_neq in Hx.
    simpl. destruct (ascii_dec x c) as [->|_]; [contradiction | reflexivity].
  - cbn in Hc. apply orb_false_iff in Hc as [_ Hp].
    change (String y a +:+ String c b) with (String y (a +:+ String c b)).
    simpl. destruct (ascii_dec x y); [apply IH, Hp | reflexivity].
Qed.

Lemma includes_cons (c : ascii) (s p : string) :
  JsString.includes (String c s) p
  = String.prefix p (String c s) || JsString.includes s p.
Proof. reflexivity. Qed.

(** A pattern without the character [c] occurs in [a ++ c :: b] exactly
    when it occurs in [a] or in [b]. *)
Lemma includes_separator (c : ascii) (p a b : string) :
  Encode.member c p = false ->
  JsString.includes (a +:+ String c b) p
  = JsString.includes a p || JsString.includes b p.
Proof.
  intros Hc. induction a as [|y a IH].
  - change (EmptyString +:+ String c b) with (String c b).
    rewrite includes_cons.
    change (String c b) with (EmptyString +:+ String c b) at 1.
    rewrite (prefix_separator _ _ _ _ Hc). cbn [JsString.includes].
    now rewrite orb_false_r.
  - change (String y a +:+ String c b) with (String y (a +:+ String c b)).
    rewrite !includes_cons, IH.
    change (String y (a +:+ String c b)) with (String y a +:+ String c b).
    rewrite (prefix_separator _ _ _ _ Hc). now rewrite !orb_assoc.
Qed.

Lemma mentions_retry_code_separator (c : ascii) (a b : string) :
  Encode.member c "4295023504" = false ->
  mentions_retry_code (a +:+ String c b)
  = mentions_retry_code a || mentions_retry_code b.
Proof.
  intros Hc. unfold mentions_retry_code.
  cbn in Hc. repeat (apply orb_false_iff in Hc as [? Hc]).
  rewrite !includes_separator by (cbn; repeat (apply orb_false_iff; split); assumption).
  destruct (JsString.includes a "429"), (JsString.includes a "502"),
           (JsString.includes a "503"), (JsString.includes a "504"),
           (JsString.includes b "429"), (JsString.includes b "502"),
           (JsString.includes b "503"); reflexivity.
Qed.

Lemma legacy_error_decision (e : exn) (context : Context.t)
    (tr : list Request.t) :
  Legacy.error {| ErrorParams.error := e |} context tr
  = if mentions_retry_code (message e) then (Return retry_requested, tr)
    else if JsString.includes (message e) "401"
            || JsString.includes (message e) "403"
            || JsString.includes (message e) "is required"
            || JsString.includes (message e) "not found"
         then (Throw e, tr)
         else (Return retry_requested, tr).
Proof.
  unfold Legacy.error, mentions_retry_code. cbn [ErrorParams.error].
  destruct (_ || _ || _ || _); [reflexivity|].
  destruct (_ || _ || _ || _); reflexivity.
Qed.

Lemma includes_prefix (p s : string) : JsString.includes (p +:+ s) p = true.
Proof.
  destruct p as [|c p]; [now destruct s|].
  change (String c p +:+ s) with (String c (p +:+ s)).
  rewrite includes_cons.
  change (String c (p +:+ s)) with (String c p +:+ s).
  now rewrite prefix_append.
Qed.

Lemma includes_append_r (a b p : string) :
  JsString.includes b p = true -> JsString.includes (a +:+ b) p = true.
Proof.
  intros H. induction a as [|c a IH]; [exact H|].
  change (String c a +:+ b) with (String c (a +:+ b)).
  rewrite includes_cons, IH. apply orb_true_r.
Qed.

Lemma mentions_query_failure (username code text : string) :
  mentions_retry_code ("Failed to query user " +:+ username +:+ ": "
                       +:+ code +:+ " " +:+ text)
  = mentions_retry_code username || mentions_retry_code code
    || mentions_retry_code text.
Proof.
  change (mentions_retry_code
            ("Failed to query user"
             +:+ String " " (username
                  +:+ String ":" (EmptyString
                       +:+ String " " (code +:+ String " " text))))
          = mentions_retry_code username || mentions_retry_code code
            || mentions_retry_code text).
  rewrite !mentions_retry_code_separator by reflexivity.
  change (mentions_retry_code "Failed to query user") with false.
  change (mentions_retry_code EmptyString) with false.
  cbn [orb]. now rewrite orb_assoc.
Qed.

Lemma mentions_not_found (username : string) :
  mentions_retry_code ("User not found: " +:+ username)
  = mentions_retry_code username.
Proof.
  change (mentions_retry_code ("User not found:" +:+ String " " username)
          = mentions_retry_code username).
  now rewrite mentions_retry_code_separator.
Qed.

Section LegacyRuns.

Variable resolve : string -> string -> outcome string.
Variables (w : World) (params : LegacyParams.t) (context : Context.t).
Variables (tr : list Request.t) (username instance : string).
Variable userResponse : Response.t.

Hypothesis configured : legacy_configured params context username instance.
Hypothesis resolves : forall input, exists url, resolve input instance = Return url.
Hypothesis responds :
  forall req, respond w (length tr) req = Responded userResponse.

Lemma legacy_invoke_query_failed :
  Response.ok userResponse = false ->
  exists req,
    LegacyScript.invoke resolve w params context tr
    = (Throw (Error ("Failed to query user " +:+ username +:+ ": "
                     +:+ JsString.of_Z (Response.status userResponse) +:+ " "
                     +:+ Response.statusText userResponse)),
       tr ++ [req]).
Proof.
  intros Hok. destruct configured as (Huser & Hpsid & Htoken & Hinstance).
  unfold LegacyScript.invoke. cbv zeta.
  rewrite (present_falsy _ _ Huser), Hpsid, Htoken, (present_falsy _ _ Hinstance).
  rewrite (present_str _ _ Huser), (present_str _ _ Hinstance).
  unfold LegacyScript.findUserByUsername. cbv zeta.
  rewrite bind_bind, bind_lift.
  match goal with
  | |- context [resolve ?input instance] =>
      destruct (resolves input) as [url ->]
  end.
  unfold bind at 1, fetch. rewrite responds, Hok. cbn [negb].
  eexists. reflexivity.
Qed.

Lemma legacy_invoke_user_not_found (userResult records : value) :
  Response.ok userResponse = true ->
  Response.json userResponse = Some userResult ->
  Js.get userResult "records" = Return records ->
  Js.truthy records = false \/ Js.get records "length" = Return (VNum 0) ->
  exists req,
    LegacyScript.invoke resolve w params context tr
    = (Throw (Error ("User not found: " +:+ username)), tr ++ [req]).
Proof.
  intros Hok Hjson Hrecords Hnone.
  destruct configured as (Huser & Hpsid & Htoken & Hinstance).
  unfold LegacyScript.invoke. cbv zeta.
  rewrite (present_falsy _ _ Huser), Hpsid, Htoken, (present_falsy _ _ Hinstance).
  rewrite (present_str _ _ Huser), (present_str _ _ Hinstance).
  unfold LegacyScript.findUserByUsername. cbv zeta.
  rewrite bind_bind, bind_lift.
  match goal with
  | |- context [resolve ?input instance] =>
      destruct (resolves input) as [url ->]
  end.
  unfold bind at 1, fetch. rewrite responds, Hok. cbn [negb].
  rewrite bind_json, Hjson, bind_lift, Hrecords.
  destruct Hnone as [Hfalsy | Hlen].
  - rewrite Hfalsy. cbn [negb]. rewrite bind_ret. eexists. reflexivity.
  - destruct (Js.truthy records); cbn [negb].
    + rewrite bind_bind, bind_lift, Hlen, bind_ret. eexists. reflexivity.
    + rewrite bind_ret. eexists. reflexivity.
Qed.

End LegacyRuns.

(** X14. In the earlier variant, a missing user name, permission set
    id, access token or instance URL makes [invoke] throw an
    '... is required' error before any request is sent, and the earlier
    error handler rethrows that error instead of asking for a retry. *)
Theorem legacy_validation_errors_are_fatal
    (resolve : string -> string -> outcome string)
    (w : World) (params : LegacyParams.t) (context : Context.t)
    (tr : list Request.t) :
  Js.falsy (LegacyParams.username params) = true
  \/ Js.falsy (LegacyParams.permissionSetId params) = true
  \/ Js.falsy (LegacyScript.optional (Context.secrets context)
                                     "SALESFORCE_ACCESS_TOKEN") = true
  \/ Js.falsy (LegacyScript.optional (Context.environment context)
                                     "SALESFORCE_INSTANCE_URL") = true ->
  exists m,
    LegacyScript.invoke resolve w params context tr = (Throw (Error m), tr)
    /\ JsString.endsWith m "is required" = true
    /\ forall context' tr',
         Legacy.error {| ErrorParams.error := Error m |} context' tr'
         = (Throw (Error m), tr').
Proof.
  intros Hmissing. unfold LegacyScript.invoke. cbv zeta.
  destruct (Js.falsy (LegacyParams.username params)).
  { eexists. split; [reflexivity|]. split; [|intros]; reflexivity. }
  destruct (Js.falsy (LegacyParams.permissionSetId params)).
  { eexists. split; [reflexivity|]. split; [|intros]; reflexivity. }
  destruct (Js.falsy (LegacyScript.optional (Context.secrets context) _)).
  { eexists. split; [reflexivity|]. split; [|intros]; reflexivity. }
  destruct (Js.falsy (LegacyScript.optional (Context.environment context) _)).
  { eexists. split; [reflexivity|]. split; [|intros]; reflexivity. }
  intuition discriminate.
Qed.

Lemma legacy_validation_errors_are_fatal_witness :
  exists m,
    LegacyScript.invoke join_url (scripted [one_user; created]) legacy_params
                        empty_context []
    = (Throw (Error m), [])
    /\ JsString.endsWith m "is required" = true.
Proof.
  destruct (legacy_validation_errors_are_fatal
              join_url (scripted [one_user; created]) legacy_params
              empty_context [])
    as (m & Hrun & Hends & _).
  - right. right. left. reflexivity.
  - exists m. split; assumption.
Defined.

(** X15. In the earlier variant, a user query answered with status 429,
    502, 503 or 504 makes [invoke] throw an error for which the earlier
    error handler returns 'retry_requested'. *)
Theorem legacy_rate_limit_is_retried
    (resolve : string -> string -> outcome string)
    (w : World) (params : LegacyParams.t) (context : Context.t)
    (tr : list Request.t) (username instance : string)
    (userResponse : Response.t) :
  legacy_configured params context username instance ->
  (forall input, exists url, resolve input instance = Return url) ->
  (forall req, respond w (length tr) req = Responded userResponse) ->
  In (Response.status userResponse) [429; 502; 503; 504] ->
  exists e req,
    LegacyScript.invoke resolve w params context tr = (Throw e, tr ++ [req])
    /\ forall context' tr',
         Legacy.error {| ErrorParams.error := e |} context' tr'
         = (Return retry_requested, tr').
Proof.
  intros Hconf Hresolve Hrespond Hstatus.
  assert (Hok : Response.ok userResponse = false).
  { unfold Response.ok. cbn [In] in Hstatus.
    decompose [or] Hstatus; try contradiction;
      match goal with H : _ = Response.status _ |- _ => rewrite <- H end;
      reflexivity. }
  destruct (legacy_invoke_query_failed resolve w params context tr username
              instance userResponse Hconf Hresolve Hrespond Hok)
    as (req & Hrun).
  eexists. exists req. split; [exact Hrun|].
  intros context' tr'. rewrite legacy_error_decision. cbn [message].
  rewrite mentions_query_failure.
  assert (mentions_retry_code (JsString.of_Z (Response.status userResponse))
          = true) as ->.
  { cbn [In] in Hstatus.
    decompose [or] Hstatus; try contradiction;
      match goal with H : _ = Response.status _ |- _ => rewrite <- H end;
      reflexivity. }
  now rewrite orb_true_r.
Qed.

Lemma legacy_rate_limit_is_retried_witness :
  exists e req,
    LegacyScript.invoke join_url (scripted [rate_limited]) legacy_params
                        legacy_context []
    = (Throw e, [] ++ [req])
    /\ Legacy.error {| ErrorParams.error := e |} legacy_context []
       = (Return retry_requested, []).
Proof.
  destruct (legacy_rate_limit_is_retried
              join_url (scripted [rate_limited]) legacy_params legacy_context
              [] "test.user@example.com" "https://test.my.salesforce.com"
              rate_limited)
    as (e & req & Hrun & Herror).
  - repeat split; try reflexivity; discriminate.
  - intros input. eexists. reflexivity.
  - intros req. reflexivity.
  - left. reflexivity.
  - exists e, req. split; [exact Hrun | apply Herror].
Defined.

(** X16. In the earlier variant, when the user query finds no record,
    [invoke] throws 'User not found: NAME', and what the earlier error
    handler does with that error depends on the user name: it is
    rethrown, unless the name contains 429, 502, 503 or 504, in which
    case the handler returns 'retry_requested'. *)
Theorem legacy_user_not_found_handling
    (resolve : string -> string -> outcome string)
    (w : World) (params : LegacyParams.t) (context : Context.t)
    (tr : list Request.t) (username instance : string)
    (userResponse : Response.t) (userResult records : value) :
  legacy_configured params context username instance ->
  (forall input, exists url, resolve input instance = Return url) ->
  (forall req, respond w (length tr) req = Responded userResponse) ->
  Response.ok userResponse = true ->
  Response.json userResponse = Some userResult ->
  Js.get userResult "records" = Return records ->
  Js.truthy records = false \/ Js.get records "length" = Return (VNum 0) ->
  let e := Error ("User not found: " +:+ username) in
  exists req,
    LegacyScript.invoke resolve w params context tr = (Throw e, tr ++ [req])
    /\ forall context' tr',
         Legacy.error {| ErrorParams.error := e |} context' tr'
         = if mentions_retry_code username
           then (Return retry_requested, tr')
           else (Throw e, tr').
Proof.
  intros Hconf Hresolve Hrespond Hok Hjson Hrecords Hnone e.
  destruct (legacy_invoke_user_not_found resolve w params context tr username
              instance userResponse Hconf Hresolve Hrespond userResult records
              Hok Hjson Hrecords Hnone)
    as (req & Hrun).
  exists req. split; [exact Hrun|].
  intros context' tr'. rewrite legacy_error_decision. subst e. cbn [message].
  rewrite mentions_not_found.
  assert (JsString.includes ("User not found: " +:+ username) "not found"
          = true) as ->.
  { apply (includes_append_r "User " ("not found" +:+ ": " +:+ username)).
    apply includes_prefix. }
  now rewrite !orb_true_r.
Qed.

Lemma legacy_user_not_found_handling_witness :
  exists req,
    LegacyScript.invoke join_url (scripted [no_user]) legacy_params
                        legacy_context []
    = (Throw (Error "User not found: test.user@example.com"), [] ++ [req])
    /\ Legacy.error
         {| ErrorParams.error := Error "User not found: test.user@example.com" |}
         legacy_context []
       = (Throw (Error "User not found: test.user@example.com"), []).
Proof.
  destruct (legacy_user_not_found_handling
              join_url (scripted [no_user]) legacy_params legacy_context
              [] "test.user@example.com" "https://test.my.salesforce.com"
              no_user (VObj [("records", VArr [])]) (VArr []))
    as (req & Hrun & Herror).
  - repeat split; try reflexivity; discriminate.
  - intros input. eexists. reflexivity.
  - intros req. reflexivity.
  - reflexivity.
  - reflexivity.
  - reflexivity.
  - right. reflexivity.
  - exists req. split; [exact Hrun | apply Herror].
Defined.

(** X17. In the earlier variant, a user query answered with status 401
    or 403 makes [invoke] throw 'Failed to query user NAME: STATUS
    TEXT'; the earlier error handler rethrows that error, unless the
    user name or the status text contains 429, 502, 503 or 504, in
    which case it returns 'retry_requested'. *)
Theorem legacy_authentication_failure_handling
    (resolve : string -> string -> outcome string)
    (w : World) (params : LegacyParams.t) (context : Context.t)
    (tr : list Request.t) (username instance : string)
    (userResponse : Response.t) :
  legacy_configured params context username instance ->
  (forall input, exists url, resolve input instance = Return url) ->
  (forall req, respond w (length tr) req = Responded userResponse) ->
  Response.status userResponse = 401 \/ Response.status userResponse = 403 ->
  exists e req,
    LegacyScript.invoke resolve w params context tr = (Throw e, tr ++ [req])
    /\ message e
       = "Failed to query user " +:+ username +:+ ": "
         +:+ JsString.of_Z (Response.status userResponse) +:+ " "
         +:+ Response.statusText userResponse
    /\ forall context' tr',
         Legacy.error {| ErrorParams.error := e |} context' tr'
         = if mentions_retry_code username
              || mentions_retry_code (Response.statusText userResponse)
           then (Return retry_requested, tr')
           else (Throw e, tr').
Proof.
  intros Hconf Hresolve Hrespond Hstatus.
  assert (Hok : Response.ok userResponse = false)
    by (unfold Response.ok; destruct Hstatus as [-> | ->]; reflexivity).
  destruct (legacy_invoke_query_failed resolve w params context tr username
              instance userResponse Hconf Hresolve Hrespond Hok)
    as (req & Hrun).
  eexists. exists req. split; [exact Hrun|]. split; [reflexivity|].
  intros context' tr'. rewrite legacy_error_decision. cbn [message].
  rewrite mentions_query_failure.
  assert (Hcode : mentions_retry_code
                    (JsString.of_Z (Response.status userResponse)) = false)
    by (destruct Hstatus as [-> | ->]; reflexivity).
  rewrite Hcode, orb_false_r.
  destruct (mentions_retry_code username
            || mentions_retry_code (Response.statusText userResponse));
    [reflexivity|].
  assert (JsString.includes
            ("Failed to query user " +:+ username +:+ ": "
             +:+ JsString.of_Z (Response.status userResponse) +:+ " "
             +:+ Response.statusText userResponse) "401"
          || JsString.includes
               ("Failed to query user " +:+ username +:+ ": "
                +:+ JsString.of_Z (Response.status userResponse) +:+ " "
                +:+ Response.statusText userResponse) "403" = true) as Hfatal.
  { apply orb_true_iff.
    destruct Hstatus as [-> | ->]; [left | right];
      apply includes_append_r, includes_append_r, includes_append_r;
      apply includes_prefix. }
  apply orb_true_iff in Hfatal as [-> | ->];
    now rewrite ?orb_true_r.
Qed.

Lemma legacy_authentication_failure_handling_witness :
  exists e req,
    LegacyScript.invoke join_url (scripted [unauthorized]) legacy_params
                        legacy_context []
    = (Throw e, [] ++ [req])
    /\ Legacy.error {| ErrorParams.error := e |} legacy_context []
       = (Throw e, []).
Proof.
  destruct (legacy_authentication_failure_handling
              join_url (scripted [unauthorized]) legacy_params legacy_context
              [] "test.user@example.com" "https://test.my.salesforce.com"
              unauthorized)
    as (e & req & Hrun & _ & Herror).
  - repeat split; try reflexivity; discriminate.
  - intros input. eexists. reflexivity.
  - intros req. reflexivity.
  - left. reflexivity.
  - exists e, req. split; [exact Hrun | apply Herror].
Defined.

(** ** The two variants side by side *)



(** ** The text of an assignment failure *)

(** X19. The message of a failed assignment, once the user query has
    resolved a user whose [Id] the log line can print: for a status
    other than 201 and 400 it is 'Failed to create permission set assignment:
    STATUS TEXT'; for status 400 with an array of errors none of which
    is a duplicate it ends with the message of the first entry only,
    or with 'Unknown error' when the array is empty or that message is
    missing or empty. *)
Theorem assignment_failure_message
    (w : World) (params : Params.t) (context : Context.t)
    (baseUrl authHeader : string) (userResponse : Response.t)
    (tr1 : list Request.t) (userId : value)
    (assignmentResponse : Response.t) (tr2 : list Request.t) :
  query_answered w params context baseUrl authHeader userResponse tr1 ->
  resolved_user userResponse userId ->
  assignment_answered w params baseUrl authHeader userId tr1
                      assignmentResponse tr2 ->
  let run := Script.invoke w params context [] in
  let failed detail :=
    (Throw (Error ("Failed to create permission set assignment: " +:+ detail)),
     tr2) in
  (Response.status assignmentResponse <> 201 ->
   Response.status assignmentResponse <> 400 ->
   run = failed (JsString.of_Z (Response.status assignmentResponse) +:+ " "
                 +:+ Response.statusText assignmentResponse)) /\
  (Response.status assignmentResponse = 400 ->
   Response.json assignmentResponse = Some (VArr []) ->
   run = failed "Unknown error") /\
  (forall first others m,
     Response.status assignmentResponse = 400 ->
     Response.json assignmentResponse = Some (VArr (first :: others)) ->
     Forall readable_entry (first :: others) ->
     Forall (fun entry => ~ duplicate_entry entry) (first :: others) ->
     Js.get first "message" = Return m ->
     run = failed (if Js.truthy m then Js.print m else "Unknown error")).
Proof.
  intros Hquery Huser Hpost run failed. subst run failed. cbv beta.
  rewrite (invoke_resolved _ _ _ _ _ _ _ _ Hquery Huser).
  unfold assignment_step. rewrite (bind_Return _ _ _ _ _ Hpost).
  repeat apply conj.
  - intros H201 H400.
    apply Z.eqb_neq in H201, H400. rewrite H201, H400.
    now rewrite bind_throw.
  - intros Hstatus Hbody.
    rewrite Hstatus. cbn [Z.eqb Pos.eqb].
    rewrite bind_bind, bind_json, Hbody. reflexivity.
  - intros first others m Hstatus Hbody Hread Hplain Hm.
    rewrite Hstatus. cbn [Z.eqb Pos.eqb].
    rewrite bind_bind, bind_json, Hbody.
    rewrite bind_bind, bind_lift. cbn [Js.some].
    rewrite some_elems_none.
    + cbv iota. rewrite bind_bind, bind_lift. cbn [Js.get0 hd].
      assert (Js.nullish first = false) as ->
        by (destruct first; try reflexivity; discriminate Hm).
      assert (Hprint : Js.to_string (if Js.truthy m then m
                                     else VStr "Unknown error")
                       = Return (if Js.truthy m then Js.print m
                                 else "Unknown error")).
      { inversion Hread as [|? ? (m' & Hm' & Hcase) _]. subst.
        rewrite Hm in Hm'. injection Hm' as <-.
        destruct Hcase as [-> | [-> | [s ->]]]; try reflexivity.
        now destruct (Js.truthy (VStr s)). }
      rewrite bind_bind, bind_lift, Hm, bind_bind, bind_lift, Hprint.
      now rewrite bind_throw.
    + clear Hbody Hm. induction Hread as [|e entries He _ IH];
        constructor.
      * apply duplicateError_plain; [exact He|].
        now inversion Hplain.
      * apply IH. now inversion Hplain.
Qed.

Lemma assignment_failure_message_witness :
  exists tr2,
    Script.invoke (scripted [one_user; answer 500 "Server Error" None])
                  sample_params bearer_context []
    = (Throw (Error "Failed to create permission set assignment: 500 Server Error"),
       tr2).
Proof.
  edestruct (assignment_failure_message
               (scripted [one_user; answer 500 "Server Error" None])
               sample_params bearer_context)
    with (userResponse := one_user)
         (assignmentResponse := answer 500 "Server Error" None)
    as (Hother & _);
    [sample_run
    | apply found_user_resolved; [sample_run | eexists; reflexivity]
    | sample_run |].
  eexists. apply Hother; discriminate.
Defined.

(** ** Ids that cannot be printed *)

(** X20. The log lines of [invoke] convert the two ids to strings, and
    the conversion throws for an object with a member named
    [toString].  When the [Id] of the first record is such a value,
    [invoke] throws a [TypeError] right after the user query and sends
    no assignment POST.  When the [id] of a 201 answer is such a value,
    [invoke] throws a [TypeError] after the assignment POST was
    answered, that is, after the assignment was created. *)
Theorem invoke_unprintable_id_throws
    (w : World) (params : Params.t) (context : Context.t)
    (baseUrl authHeader : string) (userResponse : Response.t)
    (tr1 : list Request.t) (userResult record : value) (others : list value)
    (userId : value) :
  query_answered w params context baseUrl authHeader userResponse tr1 ->
  Response.ok userResponse = true ->
  Response.json userResponse = Some userResult ->
  Js.get userResult "records" = Return (VArr (record :: others)) ->
  Js.get record "Id" = Return userId ->
  (Js.can_print userId = false ->
   exists m, Script.invoke w params context [] = (Throw (TypeError m), tr1)) /\
  (forall assignmentResponse tr2 body id,
     Js.can_print userId = true ->
     assignment_answered w params baseUrl authHeader userId tr1
                         assignmentResponse tr2 ->
     Response.status assignmentResponse = 201 ->
     Response.json assignmentResponse = Some body ->
     Js.get body "id" = Return id ->
     Js.can_print id = false ->
     exists m, Script.invoke w params context [] = (Throw (TypeError m), tr2)).
Proof.
  intros (tr0 & Hbase & Hauth & Hfind) Hok Hjson Hrecords Hid.
  assert (Hstep : Script.invoke w params context []
                  = (let! logged := lift (Js.to_string userId) in
                     assignment_step w params baseUrl authHeader userId) tr1).
  { unfold Script.invoke.
    rewrite bind_lift, Hbase.
    rewrite (bind_Return _ _ _ _ _ Hauth), (bind_Return _ _ _ _ _ Hfind).
    rewrite Hok. cbn [negb].
    rewrite bind_json, Hjson, bind_lift, Hrecords. cbn [Js.truthy negb].
    rewrite bind_bind, bind_lift. cbn [Js.get].
    change (String.eqb "length" "length") with true. cbv iota.
    rewrite bind_ret.
    change (Js.is_num (VNum (Z.of_nat (length (record :: others)))) 0)
      with false. cbv iota.
    rewrite bind_lift. cbn [Js.get0 hd]. rewrite bind_lift, Hid.
    reflexivity. }
  rewrite Hstep. clear Hstep. rewrite bind_lift. split.
  - intros Hprint. unfold Js.to_string. rewrite Hprint.
    eexists. reflexivity.
  - intros assignmentResponse tr2 body id Hprinted Hpost Hstatus Hbody Hget
           Hprint.
    unfold Js.to_string at 1. rewrite Hprinted. unfold assignment_step.
    rewrite (bind_Return _ _ _ _ _ Hpost), Hstatus. cbn [Z.eqb Pos.eqb].
    rewrite bind_bind, bind_json, Hbody. rewrite bind_bind, bind_lift, Hget.
    cbv beta. unfold Js.to_string. rewrite Hprint.
    rewrite bind_bind, bind_lift. eexists. reflexivity.
Qed.

Lemma invoke_unprintable_id_throws_witness :
  (exists m tr1,
     Script.invoke (scripted [user_with_unprintable_id; created])
                   sample_params bearer_context []
     = (Throw (TypeError m), tr1)
     /\ length tr1 = 1%nat) /\
  (exists m tr2,
     Script.invoke (scripted [one_user; created_with_unprintable_id])
                   sample_params bearer_context []
     = (Throw (TypeError m), tr2)
     /\ length tr2 = 2%nat).
Proof.
  split.
  - edestruct (invoke_unprintable_id_throws
                 (scripted [user_with_unprintable_id; created])
                 sample_params bearer_context)
      with (userResponse := user_with_unprintable_id) (userId := unprintable)
      as (Hquery & _);
      [sample_run | reflexivity | reflexivity | reflexivity | reflexivity |].
    destruct (Hquery eq_refl) as (m & Hm).
    exists m. eexists. split; [exact Hm | reflexivity].
  - edestruct (invoke_unprintable_id_throws
                 (scripted [one_user; created_with_unprintable_id])
                 sample_params bearer_context)
      with (userResponse := one_user) (userId := VStr "005000000000001")
      as (_ & Hcreated);
      [sample_run | reflexivity | reflexivity | reflexivity | reflexivity |].
    edestruct (Hcreated created_with_unprintable_id) as (m & Hm);
      [reflexivity | sample_run | reflexivity | reflexivity | reflexivity
      | reflexivity |].
    exists m. eexists. split; [exact Hm | reflexivity].
Defined.
